(** * Azure AD authorization service of the TRE API

    A shallow embedding of [api_app/services/aad_authentication.py]
    ([AzureADAuthorization]) and of the part of
    [api_app/models/domain/resource.py] it reads.

    Python dictionaries are finite maps ([gmap]); [str] is [string] (a
    sequence of bytes holding UTF-8); [bytes] is [list byte].  Code that
    raises, mutates the class-level key cache or talks to a collaborator runs
    in the monad [M]: a reader over the collaborators' answers ([Env]), a
    state ([State]: the key cache and the log of outgoing calls) and an
    exception result.  A raised exception keeps the state reached so far, as
    in Python. *)

From Stdlib Require Import ZArith Lia List.
From Stdlib.Strings Require Import String Ascii Byte.
From Stdlib Require Import DecimalString.
From stdpp Require Import base option gmap strings list fin_maps.

Local Open Scope string_scope.
Local Open Scope list_scope.

(** ** Exceptions *)

(** The constants of [resources.strings] the service uses, by name; an
    f-string keeps its arguments. *)
Inductive message : Type :=
| AUTH_UNABLE_TO_VALIDATE_TOKEN
| AUTH_COULD_NOT_VALIDATE_CREDENTIALS
| AUTH_CONFIGURATION_NOT_AVAILABLE_FOR_WORKSPACE
| WORKSPACE_DOES_NOT_EXIST
| ACCESS_UNABLE_TO_GET_ROLE_ASSIGNMENTS_FOR_USER
| ACCESS_USER_DOES_NOT_HAVE_REQUIRED_ROLE (required : option (list string))
| ACCESS_PLEASE_SUPPLY_CLIENT_ID
| ACCESS_UNABLE_TO_GET_INFO_FOR_APP (client_id : string)
| ACCESS_APP_IS_MISSING_ROLE (role : string).

(** [fastapi.status] *)
Definition HTTP_401_UNAUTHORIZED : Z := 401%Z.
Definition HTTP_403_FORBIDDEN : Z := 403%Z.
Definition HTTP_404_NOT_FOUND : Z := 404%Z.

(** The exceptions that reach the service.  All of them derive from Python's
    [Exception]; [InvalidSignatureError] is the only one an
    [except jwt.exceptions.InvalidSignatureError] clause catches. *)
Inductive exn : Type :=
| HTTPException (status_code : Z) (detail : message) (www_authenticate : bool)
| InvalidSignatureError
| InvalidAudienceError
| ExpiredSignatureError
| DecodeError
| KeyError (key : option string)
| IndexError
| TypeError
| AuthConfigValidationError (msg : message)
| EntityDoesNotExist
| PyException (arg : option string)
| CollaboratorError (what : string).

Inductive result (A : Type) : Type :=
| Ok (a : A)
| Err (e : exn).
Arguments Ok {A} a.
Arguments Err {A} e.

Definition is_InvalidSignatureError (e : exn) : bool :=
  match e with InvalidSignatureError => true | _ => false end.

Definition is_EntityDoesNotExist (e : exn) : bool :=
  match e with EntityDoesNotExist => true | _ => false end.

(** ** Domain model *)

(** [models/domain/resource.py]: [ResourceType] and the fields of [Resource]
    that have no dependency outside the file. *)
Inductive ResourceType : Type :=
| RT_Workspace | RT_WorkspaceService | RT_UserResource | RT_SharedService.

Record Resource : Type := {
  id : string;
  templateName : string;
  templateVersion : string;
  properties : gmap string string;
  isEnabled : bool;
  resourceType : ResourceType;
  resourceVersion : Z
}.

(** [models.domain.workspace.Workspace] is a [Resource]. *)
Abbreviation Workspace := Resource.

Inductive WorkspaceRole : Type :=
| NoRole | Researcher | Owner | AirlockManager.

(** [models.domain.authentication]: equality of [RoleAssignment] is by
    fields. *)
Record RoleAssignment : Type := {
  resource_id : string;
  role_id : string
}.

#[global] Instance RoleAssignment_eq_dec : EqDecision RoleAssignment.
Proof. solve_decision. Defined.

Record User : Type := {
  user_id : string;
  user_name : string;
  user_email : string;
  user_roles : list string
}.

(** The claims of a decoded token that the service reads: ['oid'], ['name'],
    ['email'], ['roles']; [None] is an absent key. *)
Record Claims : Type := {
  claim_oid : option string;
  claim_name : option string;
  claim_email : option string;
  claim_roles : option (list string)
}.

Record Request : Type := {
  path_params : gmap string string;
  headers : gmap string string
}.

(** ** Python's [in] and [any] *)

(** [x in l] on a list: equality against each element in turn. *)
Definition py_in `{EqDecision A} (x : A) (l : list A) : bool :=
  existsb (fun y => bool_decide (x = y)) l.

(** [any(role in required for role in roles)] *)
Definition any_in (roles required : list string) : bool :=
  existsb (fun role => py_in role required) roles.

(** ** Base64 padding *)

(** [_ensure_b64padding]: the key is encoded to bytes, [missing_padding] is
    [len(key) % 4], and the loop appends one [b'='] per iteration. *)
Definition _ensure_b64padding (key : string) : list byte :=
  let key := list_byte_of_string key in
  let missing_padding := length key mod 4 in
  Nat.iter missing_padding (fun key => key ++ [x3d]) key.

(** [int.from_bytes(b, "big")] *)
Definition int_from_bytes_big (b : list byte) : Z :=
  fold_left (fun acc x => (acc * 256 + Z.of_N (Byte.to_N x))%Z) b 0%Z.

(** ** Collaborators and state *)

(** [core.config] *)
Record Config : Type := {
  AAD_INSTANCE : string;
  AAD_TENANT_ID : string;
  API_AUDIENCE : string;
  API_CLIENT_ID : string;
  API_CLIENT_SECRET : string
}.

(** A [requests] response: [response.ok] and the outcome of
    [response.json()]. *)
Record response (A : Type) : Type := {
  ok : bool;
  json : result A
}.
Arguments ok {A} r.
Arguments json {A} r.

(** One record of the key set: a dictionary with ['kid'], ['n'], ['e']. *)
Abbreviation jwk := (gmap string string).

(** The service-principal document of the directory service, as
    [_get_app_auth_info] reads it. *)
Record app_info : Type := {
  ai_id : option string;
  ai_servicePrincipalNames : option (list string);
  ai_appRoles : option (list (gmap string string))
}.

Record graph_data : Type := {
  gd_value : option (list app_info)
}.

(** What the collaborators answer: the OAuth2 scheme of the base class, the
    workspace repository, the identity provider's endpoints, the directory
    service, MSAL, and the [jwt], [base64] and [rsa] libraries. *)
Record Env : Type := {
  config : Config;
  oauth2_scheme : bool -> Request -> result (option string);
  get_workspace_by_id : string -> result Workspace;
  get_openid_configuration : string -> result (response (gmap string string));
  get_jwks : string -> result (response (gmap string (list jwk)));
  get_graph : string -> gmap string string -> result graph_data;
  acquire_token_silent : result (option (gmap string string));
  acquire_token_for_client : result (gmap string string);
  urlsafe_b64decode : list byte -> result (list byte);
  save_pkcs1 : Z -> Z -> list byte;
  get_unverified_header : option string -> result (gmap string string);
  jwt_decode : option string -> list byte -> string -> result Claims
}.

(** An outgoing call, as it is logged in the state. *)
Inductive call_event : Type :=
| HttpGet (url : string)
| MsalSilent
| MsalForClient
| DbGetWorkspace (workspace_id : string).

(** [_jwt_keys] is the class-level dictionary shared by every instance and
    every request; [calls] lists the outgoing calls made so far, oldest
    first. *)
Record State : Type := {
  _jwt_keys : gmap string (list byte);
  calls : list call_event
}.

Definition M (A : Type) : Type := Env -> State -> result A * State.

#[global] Instance M_ret : MRet M := fun A a _ st => (Ok a, st).

#[global] Instance M_bind : MBind M := fun A B f m env st =>
  match m env st with
  | (Ok a, st') => f a env st'
  | (Err e, st') => (Err e, st')
  end.

#[global] Instance M_fmap : FMap M := fun A B f m env st =>
  match m env st with
  | (Ok a, st') => (Ok (f a), st')
  | (Err e, st') => (Err e, st')
  end.

Definition raise {A} (e : exn) : M A := fun _ st => (Err e, st).

Definition lift {A} (r : result A) : M A := fun _ st => (r, st).

Definition ask : M Env := fun env st => (Ok env, st).

Definition get_keys : M (gmap string (list byte)) :=
  fun _ st => (Ok (_jwt_keys st), st).

Definition store_key (kid : string) (pem : list byte) : M unit :=
  fun _ st =>
    (Ok tt, {| _jwt_keys := <[kid := pem]> (_jwt_keys st); calls := calls st |}).

Definition log (c : call_event) : M unit :=
  fun _ st => (Ok tt, {| _jwt_keys := _jwt_keys st; calls := calls st ++ [c] |}).

(** [try: body except ...: handler]: [handler e] is [None] when no [except]
    clause matches [e], which then propagates. *)
Definition try_except {A} (body : M A) (handler : exn -> option (M A)) : M A :=
  fun env st =>
    match body env st with
    | (Ok a, st') => (Ok a, st')
    | (Err e, st') =>
        match handler e with
        | Some h => h env st'
        | None => (Err e, st')
        end
    end.

(** [for x in l: body(x)] *)
Fixpoint for_each {A} (l : list A) (body : A -> M unit) : M unit :=
  match l with
  | [] => mret tt
  | x :: l => body x;; for_each l body
  end.

(** [d[k]] on a dictionary with string keys *)
Definition subscript {V} (d : gmap string V) (k : string) : result V :=
  match d !! k with
  | Some v => Ok v
  | None => Err (KeyError (Some k))
  end.

(** Truth value of a dictionary, of a string *)
Definition dict_truthy {V} (d : gmap string V) : bool :=
  negb (bool_decide (dom d = ∅)).

Definition str_truthy (s : string) : bool :=
  negb (bool_decide (s = "")).

(** [any(role in required for role in roles)] where [required] may be
    [None]: the first membership test then raises [TypeError]. *)
Definition py_any_in (roles : list string) (required : option (list string))
  : result bool :=
  match roles, required with
  | [], _ => Ok false
  | _ :: _, None => Err TypeError
  | _ :: _, Some required => Ok (any_in roles required)
  end.

(** ** The service *)

(** An instance: the constructor's [auto_error] and [require_one_of_roles]
    (default [None]). *)
Record AzureADAuthorization : Type := {
  auto_error : bool;
  require_one_of_roles : option (list string)
}.

Definition TRE_CORE_ROLES : list string := ["TREAdmin"; "TREUser"].

(** A dictionary literal iterates in insertion order, so it is kept as an
    association list. *)
Definition WORKSPACE_ROLES_DICT : list (string * string) :=
  [ ("WorkspaceOwner", "app_role_id_workspace_owner");
    ("WorkspaceResearcher", "app_role_id_workspace_researcher");
    ("AirlockManager", "app_role_id_workspace_airlock_manager") ].

Definition WORKSPACE_ROLES_DICT_keys : list string := map fst WORKSPACE_ROLES_DICT.
Definition WORKSPACE_ROLES_DICT_values : list string := map snd WORKSPACE_ROLES_DICT.

Definition WORKSPACE_ROLES_DICT_get (k : string) : option string :=
  snd <$> find (fun kv => bool_decide (fst kv = k)) WORKSPACE_ROLES_DICT.

(** *** Signing keys *)

(** [_get_key_id]; the header values are strings, so a key id is a string
    or [None]. *)
Definition _get_key_id (token : option string) : M (option string) :=
  env ← ask;
  headers ← lift (get_unverified_header env token);
  if dict_truthy headers && bool_decide (is_Some (headers !! "kid"))
  then Some <$> lift (subscript headers "kid")
  else mret None.

Definition openid_configuration_url (c : Config) : string :=
  AAD_INSTANCE c +:+ "/" +:+ AAD_TENANT_ID c
    +:+ "/v2.0/.well-known/openid-configuration".

(** [key_id in _jwt_keys] and [_jwt_keys[key_id]] *)
Definition key_in (key_id : option string) (keys : gmap string (list byte)) : bool :=
  match key_id with
  | Some k => bool_decide (is_Some (keys !! k))
  | None => false
  end.

Definition key_subscript (keys : gmap string (list byte)) (key_id : option string)
  : result (list byte) :=
  match key_id with
  | Some k => subscript keys k
  | None => Err (KeyError None)
  end.

(** Body of the loop of [_get_token_key] (lines 160-164): the right-hand
    side of the assignment is evaluated before [key['kid']]. *)
Definition cache_key (key : jwk) : M unit :=
  env ← ask;
  n_b64 ← lift (subscript key "n");
  n_raw ← lift (urlsafe_b64decode env (_ensure_b64padding n_b64));
  let n := int_from_bytes_big n_raw in
  e_b64 ← lift (subscript key "e");
  e_raw ← lift (urlsafe_b64decode env (_ensure_b64padding e_b64));
  let e := int_from_bytes_big e_raw in
  let pem := save_pkcs1 env n e in
  kid ← lift (subscript key "kid");
  store_key kid pem.

(** The branch of [_get_token_key] taken on a miss (lines 152-164): fetch
    the metadata document, then the key set, and store every key of it. *)
Definition refresh_keys : M unit :=
  env ← ask;
  let url := openid_configuration_url (config env) in
  log (HttpGet url);;
  response ← lift (get_openid_configuration env url);
  aad_metadata ← (if ok response then Some <$> lift (json response) else mret None);
  let jwks_uri :=
    match aad_metadata with
    | Some md =>
        if dict_truthy md && bool_decide (is_Some (md !! "jwks_uri"))
        then md !! "jwks_uri" else None
    | None => None
    end in
  match jwks_uri with
  | Some uri =>
      if str_truthy uri then
        log (HttpGet uri);;
        response ← lift (get_jwks env uri);
        keys ← (if ok response then Some <$> lift (json response) else mret None);
        match keys with
        | Some keys =>
            if dict_truthy keys && bool_decide (is_Some (keys !! "keys"))
            then ks ← lift (subscript keys "keys"); for_each ks cache_key
            else mret tt
        | None => mret tt
        end
      else mret tt
  | None => mret tt
  end.

Definition _get_token_key (key_id : option string) : M (list byte) :=
  keys ← get_keys;
  (if negb (key_in key_id keys) then refresh_keys else mret tt);;
  keys ← get_keys;
  lift (key_subscript keys key_id).

(** *** Tokens *)

Definition _decode_token (token : option string) (ws_app_reg_id : string) : M Claims :=
  key_id ← _get_key_id token;
  key ← _get_token_key key_id;
  env ← ask;
  lift (jwt_decode env token key ws_app_reg_id).

Definition _get_user_from_token (decoded_token : Claims) : result User :=
  match claim_oid decoded_token with
  | None => Err (KeyError (Some "oid"))
  | Some oid =>
      Ok {| user_id := oid;
            user_name := default "" (claim_name decoded_token);
            user_email := default "" (claim_email decoded_token);
            user_roles := default [] (claim_roles decoded_token) |}
  end.

(** [_fetch_ws_app_reg_id_from_ws_id]; building the repository from the
    request is part of the repository's answer. *)
Definition _fetch_ws_app_reg_id_from_ws_id (request : Request) : M string :=
  if negb (bool_decide (is_Some (path_params request !! "workspace_id"))) then
    raise (HTTPException HTTP_401_UNAUTHORIZED AUTH_COULD_NOT_VALIDATE_CREDENTIALS false)
  else
    try_except
      (workspace_id ← lift (subscript (path_params request) "workspace_id");
       env ← ask;
       log (DbGetWorkspace workspace_id);;
       workspace ← lift (get_workspace_by_id env workspace_id);
       lift (subscript (properties workspace) "client_id"))
      (fun e =>
         if is_EntityDoesNotExist e then
           Some (raise (HTTPException HTTP_404_NOT_FOUND WORKSPACE_DOES_NOT_EXIST false))
         else
           Some (raise (HTTPException HTTP_401_UNAUTHORIZED
                          AUTH_COULD_NOT_VALIDATE_CREDENTIALS false))).

(** *** The authorization gate ([__call__]) *)

(** Lines 53-63 of [__call__]: the attempt against the workspace's app
    registration; [None] when it does not apply or fails. *)
Definition try_workspace_app_registration (self : AzureADAuthorization)
    (request : Request) (token : option string) : M (option Claims) :=
  if bool_decide (is_Some (path_params request !! "workspace_id")) then
    applies ← lift (py_any_in WORKSPACE_ROLES_DICT_keys (require_one_of_roles self));
    if applies : bool then
      try_except
        (app_reg_id ← _fetch_ws_app_reg_id_from_ws_id request;
         Some <$> _decode_token token app_reg_id)
        (fun _ => Some (mret None))
    else mret None
  else mret None.

(** Lines 65-71: the attempt against the API's own app registration. *)
Definition try_core_app_registration (self : AzureADAuthorization)
    (token : option string) (decoded_token : option Claims) : M (option Claims) :=
  match decoded_token with
  | Some _ => mret decoded_token
  | None =>
      applies ← lift (py_any_in TRE_CORE_ROLES (require_one_of_roles self));
      if applies : bool then
        env ← ask;
        try_except
          (Some <$> _decode_token token (API_AUDIENCE (config env)))
          (fun e => if is_InvalidSignatureError e then Some (mret None) else None)
      else mret None
  end.

(** Lines 51-71: both attempts in order. *)
Definition decode_with_either (self : AzureADAuthorization)
    (request : Request) (token : option string) : M (option Claims) :=
  decoded_token ← try_workspace_app_registration self request token;
  try_core_app_registration self token decoded_token.

Definition forbidden (self : AzureADAuthorization) : exn :=
  HTTPException HTTP_403_FORBIDDEN
    (ACCESS_USER_DOES_NOT_HAVE_REQUIRED_ROLE (require_one_of_roles self)) true.

(** Lines 73-93: from the decoded token to the user or the denial. *)
Definition authorize (self : AzureADAuthorization)
    (decoded_token : option Claims) : M User :=
  match decoded_token with
  | None =>
      raise (HTTPException HTTP_401_UNAUTHORIZED AUTH_UNABLE_TO_VALIDATE_TOKEN false)
  | Some decoded_token =>
      user ← try_except (lift (_get_user_from_token decoded_token))
                (fun _ => Some (raise (HTTPException HTTP_401_UNAUTHORIZED
                                  ACCESS_UNABLE_TO_GET_ROLE_ASSIGNMENTS_FOR_USER true)));
      try_except
        (has ← lift (py_any_in (user_roles user) (require_one_of_roles self));
         if negb has then raise (forbidden self) else mret tt)
        (fun _ => Some (raise (forbidden self)));;
      mret user
  end.

(** [__call__] *)
Definition call (self : AzureADAuthorization) (request : Request) : M User :=
  env ← ask;
  token ← lift (oauth2_scheme env (auto_error self) request);
  decoded_token ← decode_with_either self request token;
  authorize self decoded_token.

(** *** Directory service *)

Definition _get_msgraph_token : M string :=
  env ← ask;
  log MsalSilent;;
  result ← lift (acquire_token_silent env);
  result ← (match result with
            | Some r => if dict_truthy r then mret r
                        else log MsalForClient;; lift (acquire_token_for_client env)
            | None => log MsalForClient;; lift (acquire_token_for_client env)
            end);
  if negb (bool_decide (is_Some (result !! "access_token"))) then
    raise (PyException (result !! "error"))
  else lift (subscript result "access_token").

Definition _get_auth_header (msgraph_token : string) : gmap string string :=
  {[ "Authorization" := "Bearer " +:+ msgraph_token ]}.

Definition _get_service_principal_endpoint (client_id : string) : string :=
  "https://graph.microsoft.com/v1.0/serviceprincipals?$filter=appid eq '"
    +:+ client_id +:+ "'".

Definition _get_app_sp_graph_data (client_id : string) : M graph_data :=
  msgraph_token ← _get_msgraph_token;
  let sp_endpoint := _get_service_principal_endpoint client_id in
  env ← ask;
  log (HttpGet sp_endpoint);;
  lift (get_graph env sp_endpoint (_get_auth_header msgraph_token)).

(** [obj[k]] on a field of a directory document *)
Definition field {V} (k : string) (v : option V) : result V :=
  match v with
  | Some v => Ok v
  | None => Err (KeyError (Some k))
  end.

(** [l[0]] *)
Definition first {V} (l : list V) : result V :=
  match l with
  | x :: _ => Ok x
  | [] => Err IndexError
  end.

(** The loop of [_get_app_auth_info] (lines 282-284) over [authInfo]; the
    assigned value [appRole['id']] is evaluated before the target. *)
Fixpoint collect_app_roles (appRoles : list (gmap string string))
    (authInfo : gmap string string) : result (gmap string string) :=
  match appRoles with
  | [] => Ok authInfo
  | appRole :: rest =>
      match subscript appRole "value" with
      | Err e => Err e
      | Ok value =>
          if py_in value WORKSPACE_ROLES_DICT_keys then
            match subscript appRole "id", WORKSPACE_ROLES_DICT_get value with
            | Err e, _ => Err e
            | Ok _, None => Err (KeyError (Some value))
            | Ok role_id, Some key =>
                collect_app_roles rest (<[key := role_id]> authInfo)
            end
          else collect_app_roles rest authInfo
      end
  end.

Definition _get_app_auth_info (client_id : string) : M (gmap string string) :=
  graph_data ← _get_app_sp_graph_data client_id;
  match gd_value graph_data with
  | None | Some [] =>
      raise (AuthConfigValidationError (ACCESS_UNABLE_TO_GET_INFO_FOR_APP client_id))
  | Some (app_info :: _) =>
      sp_id ← lift (field "id" (ai_id app_info));
      names ← lift (field "servicePrincipalNames" (ai_servicePrincipalNames app_info));
      scope_id ← lift (first names);
      let authInfo : gmap string string :=
        <["scope_id" := scope_id]> {[ "sp_id" := sp_id ]} in
      appRoles ← lift (field "appRoles" (ai_appRoles app_info));
      lift (collect_app_roles appRoles authInfo)
  end.

(** The loop of [extract_workspace_auth_information] (lines 336-338). *)
Fixpoint check_required_roles (roles : list (string * string))
    (auth_info : gmap string string) : result unit :=
  match roles with
  | [] => Ok tt
  | role :: rest =>
      if negb (bool_decide (is_Some (auth_info !! snd role))) then
        Err (AuthConfigValidationError (ACCESS_APP_IS_MISSING_ROLE (fst role)))
      else check_required_roles rest auth_info
  end.

Definition extract_workspace_auth_information (data : gmap string string)
  : M (gmap string string) :=
  if negb (bool_decide (is_Some (data !! "client_id"))) then
    raise (AuthConfigValidationError ACCESS_PLEASE_SUPPLY_CLIENT_ID)
  else
    client_id ← lift (subscript data "client_id");
    if negb (bool_decide (client_id = "auto_create")) then
      auth_info ← _get_app_auth_info client_id;
      lift (check_required_roles WORKSPACE_ROLES_DICT auth_info);;
      mret auth_info
    else mret ∅.

(** *** Workspace roles *)

(** The loop of [get_workspace_role] (lines 364-366). *)
Fixpoint check_required_properties (required : list string)
    (props : gmap string string) : result unit :=
  match required with
  | [] => Ok tt
  | requiredRole :: rest =>
      if negb (bool_decide (is_Some (props !! requiredRole))) then
        Err (AuthConfigValidationError AUTH_CONFIGURATION_NOT_AVAILABLE_FOR_WORKSPACE)
      else check_required_properties rest props
  end.

(** [r >>= k] on results, for code that raises but has no other effect. *)
Definition rbind {A B} (r : result A) (k : A -> result B) : result B :=
  match r with
  | Ok a => k a
  | Err e => Err e
  end.

Definition get_workspace_role (user : User) (workspace : Workspace)
    (user_role_assignments : list RoleAssignment) : result WorkspaceRole :=
  if negb (bool_decide (is_Some (properties workspace !! "sp_id"))) then
    Err (AuthConfigValidationError AUTH_CONFIGURATION_NOT_AVAILABLE_FOR_WORKSPACE)
  else
    rbind (subscript (properties workspace) "sp_id") (fun workspace_sp_id =>
    rbind (check_required_properties WORKSPACE_ROLES_DICT_values (properties workspace)) (fun _ =>
    rbind (subscript (properties workspace) "app_role_id_workspace_owner") (fun owner_id =>
    if py_in {| resource_id := workspace_sp_id; role_id := owner_id |} user_role_assignments
    then Ok Owner else
    rbind (subscript (properties workspace) "app_role_id_workspace_researcher") (fun researcher_id =>
    if py_in {| resource_id := workspace_sp_id; role_id := researcher_id |} user_role_assignments
    then Ok Researcher else
    rbind (subscript (properties workspace) "app_role_id_workspace_airlock_manager") (fun manager_id =>
    if py_in {| resource_id := workspace_sp_id; role_id := manager_id |} user_role_assignments
    then Ok AirlockManager else
    Ok NoRole))))).

(** ** Relations between the state before and after a computation *)

(** [m] relates every initial state to its final state by [R], whether it
    returns or raises. *)
Definition preserves (R : State -> State -> Prop) {A} (m : M A) : Prop :=
  forall env st, R st (m env st).2.

(** No key id leaves the cache. *)
Definition keys_kept (st st' : State) : Prop :=
  forall kid, is_Some (_jwt_keys st !! kid) -> is_Some (_jwt_keys st' !! kid).

(** No call goes out. *)
Definition same_calls (st st' : State) : Prop := calls st' = calls st.

(** ** Scenarios

    Concrete workspaces, requests and collaborator answers on which the
    service is run below. *)

Definition no_state : State := {| _jwt_keys := ∅; calls := [] |}.

Definition sample_user : User :=
  {| user_id := "u1"; user_name := "Ada"; user_email := "ada@example.org";
     user_roles := ["WorkspaceOwner"] |}.

Definition workspace_with (props : gmap string string) : Workspace :=
  {| id := "ws1"; templateName := "tre-workspace-base"; templateVersion := "0.1.0";
     properties := props; isEnabled := true; resourceType := RT_Workspace;
     resourceVersion := 0 |}.

(** The workspace of the role-resolution scenario: service principal
    ["sp1"] and the three role ids. *)
Definition sample_props : gmap string string :=
  <["sp_id" := "sp1"]>
  (<["app_role_id_workspace_owner" := "owner-role"]>
  (<["app_role_id_workspace_researcher" := "r-role"]>
  (<["app_role_id_workspace_airlock_manager" := "a-role"]> ∅))).

Definition sample_workspace : Workspace := workspace_with sample_props.

(** The same without a service-principal id, and without the
    airlock-manager role id. *)
Definition workspace_without_sp_id : Workspace :=
  workspace_with (delete "sp_id" sample_props).

Definition workspace_without_airlock_manager : Workspace :=
  workspace_with (delete "app_role_id_workspace_airlock_manager" sample_props).

Definition owner_and_researcher : list RoleAssignment :=
  [ {| resource_id := "sp1"; role_id := "r-role" |};
    {| resource_id := "sp1"; role_id := "owner-role" |} ].

Definition sample_config : Config :=
  {| AAD_INSTANCE := "https://login.microsoftonline.com";
     AAD_TENANT_ID := "contoso";
     API_AUDIENCE := "api://tre-api";
     API_CLIENT_ID := "tre-api";
     API_CLIENT_SECRET := "s3cret" |}.

Definition jwks_uri_of_provider : string :=
  "https://login.microsoftonline.com/contoso/discovery/v2.0/keys".

(** The answers of [base64.urlsafe_b64decode] on the fields of the
    scenarios: ["AQAB"] is 01 00 01, ["AQAD"] is 01 00 03, ["AQAF"] is
    01 00 05. *)
Definition sample_b64decode (b : list byte) : result (list byte) :=
  let s := string_of_list_byte b in
  if String.eqb s "AQAB" then Ok [x01; x00; x01]
  else if String.eqb s "AQAD" then Ok [x01; x00; x03]
  else if String.eqb s "AQAF" then Ok [x01; x00; x05]
  else Err (CollaboratorError "binascii.Error").

(** A stand-in for the PEM serialisation of a public key: different keys
    give different bytes. *)
Definition sample_save_pkcs1 (n e : Z) : list byte :=
  list_byte_of_string
    ("RSA PUBLIC KEY " +:+ NilZero.string_of_int (Z.to_int n)
       +:+ " " +:+ NilZero.string_of_int (Z.to_int e)).

Definition make_jwk (kid n e : string) : jwk :=
  <["kid" := kid]> (<["n" := n]> (<["e" := e]> ∅)).

(** An identity provider serving the key set [keys]; every token carries
    the key id [kid], and [jwt.decode] answers [decoded].  No workspace
    exists, and the directory service is unreachable. *)
Definition provider (keys : list jwk) (kid : string)
    (decoded : list byte -> string -> result Claims) : Env :=
  {| config := sample_config;
     oauth2_scheme := fun _ request =>
       match headers request !! "Authorization" with
       | Some token => Ok (Some token)
       | None => Err (HTTPException HTTP_401_UNAUTHORIZED
                        AUTH_COULD_NOT_VALIDATE_CREDENTIALS true)
       end;
     get_workspace_by_id := fun _ => Err EntityDoesNotExist;
     get_openid_configuration := fun _ =>
       Ok {| ok := true; json := Ok {[ "jwks_uri" := jwks_uri_of_provider ]} |};
     get_jwks := fun _ =>
       Ok {| ok := true; json := Ok {[ "keys" := keys ]} |};
     get_graph := fun _ _ => Err (CollaboratorError "ConnectionError");
     acquire_token_silent := Ok None;
     acquire_token_for_client := Err (CollaboratorError "ConnectionError");
     urlsafe_b64decode := sample_b64decode;
     save_pkcs1 := sample_save_pkcs1;
     get_unverified_header := fun _ => Ok {[ "kid" := kid ]};
     jwt_decode := fun _ => decoded |}.

Definition keys_before_rotation : list jwk := [ make_jwk "k1" "AQAD" "AQAB" ].

(** The provider has re-issued ["k1"] with another modulus and added
    ["k2"]. *)
Definition keys_after_rotation : list jwk :=
  [ make_jwk "k1" "AQAF" "AQAB"; make_jwk "k2" "AQAD" "AQAB" ].

Definition admin_claims : Claims :=
  {| claim_oid := Some "u1"; claim_name := None; claim_email := None;
     claim_roles := Some ["TREAdmin"] |}.

Definition bearer_request (params : gmap string string) : Request :=
  {| path_params := params; headers := {[ "Authorization" := "eyJ0eXAi" ]} |}.

(** A token issued for another audience: [jwt.decode] raises
    [InvalidAudienceError] for every audience asked. *)
Definition provider_other_audience : Env :=
  provider keys_before_rotation "k1" (fun _ _ => Err InvalidAudienceError).

(** A valid token of a TRE administrator, accepted for the API audience
    only. *)
Definition provider_admin : Env :=
  provider keys_before_rotation "k1"
    (fun _ audience =>
       if String.eqb audience (API_AUDIENCE sample_config)
       then Ok admin_claims else Err InvalidAudienceError).

(** The provider after the rotation: tokens now carry the key id ["k2"]. *)
Definition provider_after_rotation : Env :=
  provider keys_after_rotation "k2"
    (fun _ audience =>
       if String.eqb audience (API_AUDIENCE sample_config)
       then Ok admin_claims else Err InvalidAudienceError).

Definition core_gate : AzureADAuthorization :=
  {| auto_error := true; require_one_of_roles := Some ["TREAdmin"; "TREUser"] |}.

Definition workspace_gate : AzureADAuthorization :=
  {| auto_error := true; require_one_of_roles := Some ["WorkspaceOwner"] |}.

Definition auto_create_data : gmap string string :=
  <["client_id" := "auto_create"]> {[ "display_name" := "my workspace" ]}.

(** ** The rest of the directory client

    [get_workspace_role_assignment_details], [get_identity_role_assignments]
    and what they call.  They POST to the directory service and can raise
    exceptions the gate never sees, so they run in the monad [D]: [M]
    extended with the answers of these endpoints ([Directory]), the list of
    URLs POSTed so far, and more exceptions. *)

(** [{'value': [...]}]: app role assignments, each a dictionary of
    strings (['appRoleId'], ['principalId'], ['principalType'], or
    ['resourceId'], ['appRoleId']). *)
Record roles_graph_data : Type := {
  rg_value : option (list (gmap string string))
}.

(** One response of a batch: [body] with ['mail'] (a string or [null]) and
    ['id']; an absent key is [None]. *)
Record user_body : Type := {
  ub_mail : option (option string);
  ub_id : option string
}.

Record user_data : Type := {
  ud_body : option user_body
}.

Record users_graph_data : Type := {
  ug_responses : option (list user_data)
}.

(** The answer of [directoryObjects/getByIds]: objects with
    ['@odata.type']. *)
Record directory_object : Type := {
  odata_type : option string
}.

Record objects_graph_data : Type := {
  og_value : option (list directory_object)
}.

Record get_by_ids_body : Type := {
  ids : list string;
  types : list string
}.

Record Directory : Type := {
  get_app_role_assigned_to : string -> gmap string string -> result roles_graph_data;
  get_app_role_assignments : string -> gmap string string -> result roles_graph_data;
  post_batch : string -> gmap string string ->
               gmap string (list (gmap string string)) -> result users_graph_data;
  post_get_by_ids : string -> gmap string string -> get_by_ids_body ->
                    result objects_graph_data
}.

(** Messages of [resources.strings] used by the directory client only. *)
Inductive directory_message : Type :=
| ACCESS_UNABLE_TO_GET_ACCOUNT_TYPE (id : string)
| ACCESS_UNHANDLED_ACCOUNT_TYPE (identity_type : string)
| ACCESS_UNABLE_TO_GET_ROLE_ASSIGNMENTS_FOR (user_id : string).

(** What can be raised here: the exceptions of the gate, an
    [AuthConfigValidationError] with one of the messages above, and the
    built-in [UnboundLocalError] and [AttributeError]. *)
Inductive raised : Type :=
| Exn (e : exn)
| AuthConfigValidation (msg : directory_message)
| UnboundLocalError (name : string)
| AttributeError (name : string).

Inductive outcome (A : Type) : Type :=
| Returned (a : A)
| Raised (r : raised).
Arguments Returned {A} a.
Arguments Raised {A} r.

Record DState : Type := {
  d_state : State;
  posted : list string
}.

Definition D (A : Type) : Type := Directory -> Env -> DState -> outcome A * DState.

#[global] Instance D_ret : MRet D := fun A a _ _ ds => (Returned a, ds).

#[global] Instance D_bind : MBind D := fun A B f m dir env ds =>
  match m dir env ds with
  | (Returned a, ds') => f a dir env ds'
  | (Raised r, ds') => (Raised r, ds')
  end.

Definition dask : D Directory := fun dir _ ds => (Returned dir, ds).

Definition draise {A} (r : raised) : D A := fun _ _ ds => (Raised r, ds).

(** A computation of [M] inside [D]. *)
Definition liftM {A} (m : M A) : D A := fun _ env ds =>
  match m env (d_state ds) with
  | (Ok a, st) => (Returned a, {| d_state := st; posted := posted ds |})
  | (Err e, st) => (Raised (Exn e), {| d_state := st; posted := posted ds |})
  end.

Definition liftR {A} (r : result A) : D A := liftM (lift r).

Definition log_post (url : string) : D unit := fun _ _ ds =>
  (Returned tt, {| d_state := d_state ds; posted := posted ds ++ [url] |}).

Definition _get_service_principal_assigned_roles_endpoint (client_id : string) : string :=
  "https://graph.microsoft.com/v1.0/serviceprincipals/" +:+ client_id
    +:+ "/appRoleAssignedTo?$select=appRoleId,principalId,principalType".

Definition _get_batch_endpoint : string := "https://graph.microsoft.com/v1.0/$batch".

Definition _get_users_endpoint (user_object_id : string) : string :=
  "/users/" +:+ user_object_id +:+ "?$select=mail,id".

Definition _get_group_members_endpoint (group_object_id : string) : string :=
  "/groups/" +:+ group_object_id +:+ "/transitiveMembers?$select=mail,id".

(** The dictionary appended to [request_body["requests"]]. *)
Definition batch_request (batch_url principal_id : string) : gmap string string :=
  <["method" := "GET"]> (<["url" := batch_url]> {[ "id" := principal_id ]}).

(** The loop of [_get_batch_users_by_role_assignments_body] (lines 252-265)
    over the list [request_body["requests"]] and the set
    [met_principal_ids]. *)
Fixpoint batch_requests (value : list (gmap string string))
    (requests : list (gmap string string)) (met_principal_ids : gset string)
  : result (list (gmap string string)) :=
  match value with
  | [] => Ok requests
  | role_assignment :: rest =>
      match subscript role_assignment "principalId" with
      | Err e => Err e
      | Ok principal_id =>
          if negb (bool_decide (principal_id ∈ met_principal_ids)) then
            match subscript role_assignment "principalType" with
            | Err e => Err e
            | Ok principal_type =>
                if String.eqb principal_type "User" then
                  batch_requests rest
                    (requests ++ [batch_request (_get_users_endpoint principal_id) principal_id])
                    ({[ principal_id ]} ∪ met_principal_ids)
                else if String.eqb principal_type "Group" then
                  batch_requests rest
                    (requests ++ [batch_request (_get_group_members_endpoint principal_id)
                                    principal_id])
                    ({[ principal_id ]} ∪ met_principal_ids)
                else batch_requests rest requests met_principal_ids
            end
          else batch_requests rest requests met_principal_ids
      end
  end.

Definition _get_batch_users_by_role_assignments_body (roles_graph_data : roles_graph_data)
  : result (gmap string (list (gmap string string))) :=
  rbind (field "value" (rg_value roles_graph_data)) (fun value =>
  rbind (batch_requests value [] ∅) (fun requests =>
  Ok {[ "requests" := requests ]})).

Definition _get_user_emails_with_role_asssignment (client_id : string)
  : D (roles_graph_data * users_graph_data) :=
  msgraph_token ← liftM _get_msgraph_token;
  let sp_roles_endpoint := _get_service_principal_assigned_roles_endpoint client_id in
  dir ← dask;
  liftM (log (HttpGet sp_roles_endpoint));;
  roles_graph_data ← liftR (get_app_role_assigned_to dir sp_roles_endpoint
                              (_get_auth_header msgraph_token));
  let batch_endpoint := _get_batch_endpoint in
  batch_request_body ← liftR (_get_batch_users_by_role_assignments_body roles_graph_data);
  let headers := <["Content-type" := "application/json"]> (_get_auth_header msgraph_token) in
  log_post batch_endpoint;;
  users_graph_data ← liftR (post_batch dir batch_endpoint headers batch_request_body);
  mret (roles_graph_data, users_graph_data).

(** The first loop of [get_workspace_role_assignment_details] (lines
    235-237) over [user_emails]. *)
Fixpoint collect_user_emails (responses : list user_data)
    (user_emails : gmap string string) : result (gmap string string) :=
  match responses with
  | [] => Ok user_emails
  | user_data :: rest =>
      match field "body" (ud_body user_data) with
      | Err e => Err e
      | Ok body =>
          match field "mail" (ub_mail body) with
          | Err e => Err e
          | Ok None => collect_user_emails rest user_emails
          | Ok (Some mail) =>
              match field "id" (ub_id body) with
              | Err e => Err e
              | Ok user_id => collect_user_emails rest (<[user_id := mail]> user_emails)
              end
          end
      end
  end.

(** [details[key].append(email)] on a [defaultdict(list)] *)
Definition append_to (key email : string) (details : gmap string (list string))
  : gmap string (list string) :=
  <[key := default [] (details !! key) ++ [email]]> details.

(** The second loop (lines 240-245) over
    [workspace_role_assignments_details]. *)
Fixpoint classify_role_assignments (value : list (gmap string string))
    (researcher_app_role_id owner_app_role_id : string)
    (user_emails : gmap string string) (details : gmap string (list string))
  : result (gmap string (list string)) :=
  match value with
  | [] => Ok details
  | role_assignment :: rest =>
      match subscript role_assignment "principalType" with
      | Err e => Err e
      | Ok principal_type =>
          if String.eqb principal_type "User" then
            match subscript role_assignment "principalId" with
            | Err e => Err e
            | Ok principal_id =>
                match user_emails !! principal_id with
                | None =>
                    classify_role_assignments rest researcher_app_role_id
                      owner_app_role_id user_emails details
                | Some email =>
                    match subscript role_assignment "appRoleId" with
                    | Err e => Err e
                    | Ok app_role_id =>
                        if String.eqb app_role_id researcher_app_role_id then
                          classify_role_assignments rest researcher_app_role_id
                            owner_app_role_id user_emails
                            (append_to "researcher_emails" email details)
                        else if String.eqb app_role_id owner_app_role_id then
                          classify_role_assignments rest researcher_app_role_id
                            owner_app_role_id user_emails
                            (append_to "owner_emails" email details)
                        else
                          classify_role_assignments rest researcher_app_role_id
                            owner_app_role_id user_emails details
                    end
                end
            end
          else
            classify_role_assignments rest researcher_app_role_id
              owner_app_role_id user_emails details
      end
  end.

Definition get_workspace_role_assignment_details (workspace : Workspace)
  : D (gmap string (list string)) :=
  researcher_app_role_id ←
    liftR (subscript (properties workspace) "app_role_id_workspace_researcher");
  owner_app_role_id ←
    liftR (subscript (properties workspace) "app_role_id_workspace_owner");
  sp_id ← liftR (subscript (properties workspace) "sp_id");
  fetched ← _get_user_emails_with_role_asssignment sp_id;
  let roles_graph_data := fetched.1 in
  let users_graph_data := fetched.2 in
  responses ← liftR (field "responses" (ug_responses users_graph_data));
  user_emails ← liftR (collect_user_emails responses ∅);
  value ← liftR (field "value" (rg_value roles_graph_data));
  liftR (classify_role_assignments value researcher_app_role_id owner_app_role_id
           user_emails ∅).

(** *** Identities *)

Definition _get_role_assignment_graph_data_for_user (user_id : string)
  : D roles_graph_data :=
  msgraph_token ← liftM _get_msgraph_token;
  let user_endpoint :=
    "https://graph.microsoft.com/v1.0/users/" +:+ user_id +:+ "/appRoleAssignments" in
  dir ← dask;
  liftM (log (HttpGet user_endpoint));;
  liftR (get_app_role_assignments dir user_endpoint (_get_auth_header msgraph_token)).

Definition _get_role_assignment_graph_data_for_service_principal (principal_id : string)
  : D roles_graph_data :=
  msgraph_token ← liftM _get_msgraph_token;
  let user_endpoint :=
    "https://graph.microsoft.com/v1.0/servicePrincipals/" +:+ principal_id
      +:+ "/appRoleAssignments" in
  dir ← dask;
  liftM (log (HttpGet user_endpoint));;
  liftR (get_app_role_assignments dir user_endpoint (_get_auth_header msgraph_token)).

Definition _get_identity_type (id : string) : D string :=
  msgraph_token ← liftM _get_msgraph_token;
  let objects_endpoint := "https://graph.microsoft.com/v1.0/directoryObjects/getByIds" in
  let request_body := {| ids := [id]; types := ["user"; "servicePrincipal"] |} in
  dir ← dask;
  log_post objects_endpoint;;
  graph_data ← liftR (post_get_by_ids dir objects_endpoint
                        (_get_auth_header msgraph_token) request_body);
  match og_value graph_data with
  | Some [object_info] =>
      match odata_type object_info with
      | Some identity_type => mret identity_type
      | None => draise (AuthConfigValidation (ACCESS_UNABLE_TO_GET_ACCOUNT_TYPE id))
      end
  | _ => draise (AuthConfigValidation (ACCESS_UNABLE_TO_GET_ACCOUNT_TYPE id))
  end.

(** The list comprehension of [get_identity_role_assignments] (line 356);
    [RoleAssignment(a, b)] fills [resource_id], then [role_id]. *)
Fixpoint role_assignments_of (value : list (gmap string string))
  : result (list RoleAssignment) :=
  match value with
  | [] => Ok []
  | role_assignment :: rest =>
      match subscript role_assignment "resourceId" with
      | Err e => Err e
      | Ok resourceId =>
          match subscript role_assignment "appRoleId" with
          | Err e => Err e
          | Ok appRoleId =>
              match role_assignments_of rest with
              | Err e => Err e
              | Ok l => Ok ({| resource_id := resourceId; role_id := appRoleId |} :: l)
              end
          end
      end
  end.

(** In the last branch [graph_data] is read before any assignment to it:
    Python raises [UnboundLocalError] there, and the [raise] below it is
    not reached. *)
Definition get_identity_role_assignments (user_id : string) : D (list RoleAssignment) :=
  identity_type ← _get_identity_type user_id;
  graph_data ←
    (if String.eqb identity_type "#microsoft.graph.user" then
       _get_role_assignment_graph_data_for_user user_id
     else if String.eqb identity_type "#microsoft.graph.servicePrincipal" then
       _get_role_assignment_graph_data_for_service_principal user_id
     else draise (UnboundLocalError "graph_data"));
  match rg_value graph_data with
  | None =>
      draise (AuthConfigValidation (ACCESS_UNABLE_TO_GET_ROLE_ASSIGNMENTS_FOR user_id))
  | Some value => liftR (role_assignments_of value)
  end.

(** ** Resources ([models/domain/resource.py]) *)

(** A value of the payload dictionary: a string, the action (of the enum
    [RequestAction], which is declared elsewhere), or the parameters. *)
Inductive payload_value (RequestAction : Type) : Type :=
| PStr (s : string)
| PAction (action : RequestAction)
| PParameters (parameters : gmap string string).
Arguments PStr {RequestAction} s.
Arguments PAction {RequestAction} action.
Arguments PParameters {RequestAction} parameters.

(** [self.name] for an attribute that [Resource] does not declare:
    [attributes] holds what the class of [self] adds to [Resource]. *)
Definition getattr (attributes : gmap string string) (name : string)
  : outcome string :=
  match attributes !! name with
  | Some v => Returned v
  | None => Raised (AttributeError name)
  end.

Definition get_resource_request_message_payload {RequestAction : Type}
    (self : Resource) (attributes : gmap string string)
    (operation_id step_id : string) (action : RequestAction)
  : outcome (gmap string (payload_value RequestAction)) :=
  let payload : gmap string (payload_value RequestAction) :=
    <["operationId" := PStr operation_id]>
    (<["stepId" := PStr step_id]>
    (<["action" := PAction action]>
    (<["id" := PStr (id self)]>
    (<["name" := PStr (templateName self)]>
    (<["version" := PStr (templateVersion self)]>
    (<["parameters" := PParameters (properties self)]> ∅)))))) in
  match
    (match resourceType self with
     | RT_WorkspaceService =>
         match getattr attributes "workspaceId" with
         | Returned w => Returned (<["workspaceId" := PStr w]> payload)
         | Raised r => Raised r
         end
     | _ => Returned payload
     end)
  with
  | Raised r => Raised r
  | Returned payload =>
      match resourceType self with
      | RT_UserResource =>
          match getattr attributes "workspaceId" with
          | Raised r => Raised r
          | Returned w =>
              match getattr attributes "ownerId" with
              | Raised r => Raised r
              | Returned o =>
                  match getattr attributes "parentWorkspaceServiceId" with
                  | Raised r => Raised r
                  | Returned p =>
                      Returned (<["parentWorkspaceServiceId" := PStr p]>
                                (<["ownerId" := PStr o]>
                                (<["workspaceId" := PStr w]> payload)))
                  end
              end
          end
      | _ => Returned payload
      end
  end.



(** ** Further scenarios *)

(** [env] with other answers of [jwt.get_unverified_header], of the
    metadata endpoint, of the key-set endpoint, of MSAL and of the
    directory service. *)
Definition with_header (env : Env) (header : gmap string string) : Env :=
  {| config := config env;
     oauth2_scheme := oauth2_scheme env;
     get_workspace_by_id := get_workspace_by_id env;
     get_openid_configuration := get_openid_configuration env;
     get_jwks := get_jwks env;
     get_graph := get_graph env;
     acquire_token_silent := acquire_token_silent env;
     acquire_token_for_client := acquire_token_for_client env;
     urlsafe_b64decode := urlsafe_b64decode env;
     save_pkcs1 := save_pkcs1 env;
     get_unverified_header := fun _ => Ok header;
     jwt_decode := jwt_decode env |}.

Definition with_metadata (env : Env)
    (answer : result (response (gmap string string))) : Env :=
  {| config := config env;
     oauth2_scheme := oauth2_scheme env;
     get_workspace_by_id := get_workspace_by_id env;
     get_openid_configuration := fun _ => answer;
     get_jwks := get_jwks env;
     get_graph := get_graph env;
     acquire_token_silent := acquire_token_silent env;
     acquire_token_for_client := acquire_token_for_client env;
     urlsafe_b64decode := urlsafe_b64decode env;
     save_pkcs1 := save_pkcs1 env;
     get_unverified_header := get_unverified_header env;
     jwt_decode := jwt_decode env |}.

Definition with_directory (env : Env)
    (silent : result (option (gmap string string)))
    (for_client : result (gmap string string))
    (graph : string -> gmap string string -> result graph_data) : Env :=
  {| config := config env;
     oauth2_scheme := oauth2_scheme env;
     get_workspace_by_id := get_workspace_by_id env;
     get_openid_configuration := get_openid_configuration env;
     get_jwks := get_jwks env;
     get_graph := graph;
     acquire_token_silent := silent;
     acquire_token_for_client := for_client;
     urlsafe_b64decode := urlsafe_b64decode env;
     save_pkcs1 := save_pkcs1 env;
     get_unverified_header := get_unverified_header env;
     jwt_decode := jwt_decode env |}.

Definition with_workspace (env : Env) (workspace : Workspace) : Env :=
  {| config := config env;
     oauth2_scheme := oauth2_scheme env;
     get_workspace_by_id := fun workspace_id =>
       if String.eqb workspace_id (id workspace) then Ok workspace
       else Err EntityDoesNotExist;
     get_openid_configuration := get_openid_configuration env;
     get_jwks := get_jwks env;
     get_graph := get_graph env;
     acquire_token_silent := acquire_token_silent env;
     acquire_token_for_client := acquire_token_for_client env;
     urlsafe_b64decode := urlsafe_b64decode env;
     save_pkcs1 := save_pkcs1 env;
     get_unverified_header := get_unverified_header env;
     jwt_decode := jwt_decode env |}.

(** Tokens without a key id in the header. *)
Definition provider_without_kid : Env :=
  with_header provider_admin {[ "alg" := "RS256" ]}.

(** The metadata endpoint answers 503. *)
Definition provider_metadata_down : Env :=
  with_metadata provider_admin
    (Ok {| ok := false; json := Err (CollaboratorError "JSONDecodeError") |}).

(** A key set whose second record has no modulus. *)
Definition jwk_without_n : jwk := <["kid" := "k3"]> (<["e" := "AQAB"]> ∅).

Definition keys_with_malformed : list jwk :=
  [ make_jwk "k1" "AQAD" "AQAB"; jwk_without_n; make_jwk "k2" "AQAF" "AQAB" ].

(** The state [st] after the calls [events] went out. *)
Definition logged (st : State) (events : list call_event) : State :=
  {| _jwt_keys := _jwt_keys st; calls := calls st ++ events |}.

(** A gate built without [require_one_of_roles]. *)
Definition default_gate : AzureADAuthorization :=
  {| auto_error := true; require_one_of_roles := None |}.

(** A token whose verified claims carry no ['oid']. *)
Definition claims_without_oid : Claims :=
  {| claim_oid := None; claim_name := Some "Ada"; claim_email := None;
     claim_roles := Some ["TREAdmin"] |}.

Definition provider_without_oid : Env :=
  provider keys_before_rotation "k1" (fun _ _ => Ok claims_without_oid).

(** A directory service that knows the application ["app-1"]: its service
    principal ["sp1"] defines the three workspace roles and one more. *)
Definition app_role (value role_id : string) : gmap string string :=
  <["value" := value]> {[ "id" := role_id ]}.

Definition sample_app_info : app_info :=
  {| ai_id := Some "sp1";
     ai_servicePrincipalNames := Some ["api://app-1"; "app-1"];
     ai_appRoles :=
       Some [ app_role "WorkspaceOwner" "owner-role";
              app_role "Auditor" "audit-role";
              app_role "WorkspaceResearcher" "r-role";
              app_role "AirlockManager" "a-role" ] |}.

Definition sample_graph (url : string) (auth_header : gmap string string)
  : result graph_data :=
  if String.eqb url (_get_service_principal_endpoint "app-1")
  then Ok {| gd_value := Some [sample_app_info] |}
  else Ok {| gd_value := Some [] |}.

(** MSAL has a token in its cache. *)
Definition directory_env : Env :=
  with_directory provider_admin
    (Ok (Some {[ "access_token" := "graph-token" ]}))
    (Err (CollaboratorError "ConnectionError"))
    sample_graph.

(** MSAL's cache answers with an error document. *)
Definition directory_env_silent_error : Env :=
  with_directory provider_admin
    (Ok (Some {[ "error" := "invalid_client" ]}))
    (Ok {[ "access_token" := "graph-token" ]})
    sample_graph.

Definition app_1_data : gmap string string := {[ "client_id" := "app-1" ]}.

(** What the directory service of [directory_env] yields for ["app-1"]. *)
Definition app_1_auth_info : gmap string string :=
  <["app_role_id_workspace_airlock_manager" := "a-role"]>
  (<["app_role_id_workspace_researcher" := "r-role"]>
  (<["app_role_id_workspace_owner" := "owner-role"]>
  (<["scope_id" := "api://app-1"]> {[ "sp_id" := "sp1" ]}))).

(** The ['id'] of each request of a batch, in order. *)
Definition request_ids (requests : list (gmap string string)) : list string :=
  omap (fun request => request !! "id") requests.

(** A role assignment asks for the principal [principal_id] when it names
    it as a user or as a group. *)
Definition asks_for (role_assignment : gmap string string) (principal_id : string) : Prop :=
  role_assignment !! "principalId" = Some principal_id
  /\ (role_assignment !! "principalType" = Some "User"
      \/ role_assignment !! "principalType" = Some "Group").

(** Assignments of the directory in the order user, service principal,
    group, the user again under another role. *)
Definition role_assignment_doc (role principal kind : string) : gmap string string :=
  <["appRoleId" := role]> (<["principalId" := principal]> {[ "principalType" := kind ]}).

Definition sample_assignments : roles_graph_data :=
  {| rg_value :=
       Some [ role_assignment_doc "owner-role" "u1" "User";
              role_assignment_doc "owner-role" "sp9" "ServicePrincipal";
              role_assignment_doc "r-role" "g1" "Group";
              role_assignment_doc "r-role" "u1" "User";
              role_assignment_doc "r-role" "u2" "User" ] |}.

(** An email is listed under [key] for a reason: a user's assignment of
    the role that [key] stands for, and the email found for that user. *)
Definition listed_for (assignments : list (gmap string string))
    (researcher_app_role_id owner_app_role_id : string)
    (user_emails : gmap string string) (key email : string) : Prop :=
  exists ra p,
    ra ∈ assignments
    /\ ra !! "principalType" = Some "User"
    /\ ra !! "principalId" = Some p
    /\ user_emails !! p = Some email
    /\ ((key = "researcher_emails" /\ ra !! "appRoleId" = Some researcher_app_role_id)
        \/ (key = "owner_emails" /\ ra !! "appRoleId" = Some owner_app_role_id
            /\ owner_app_role_id <> researcher_app_role_id)).

Definition details_justified (assignments : list (gmap string string))
    (researcher_app_role_id owner_app_role_id : string)
    (user_emails : gmap string string) (details : gmap string (list string)) : Prop :=
  forall key emails, details !! key = Some emails ->
    (key = "researcher_emails" \/ key = "owner_emails")
    /\ forall email, email ∈ emails ->
         listed_for assignments researcher_app_role_id owner_app_role_id
           user_emails key email.

(** The emails come from the batch: each entry of [user_emails] is the
    mail of a response with that id. *)
Definition emails_from (responses : list user_data) (user_emails : gmap string string)
  : Prop :=
  forall p email, user_emails !! p = Some email ->
    exists ud body, ud ∈ responses /\ ud_body ud = Some body
                    /\ ub_id body = Some p /\ ub_mail body = Some (Some email).

Definition no_dstate : DState := {| d_state := no_state; posted := [] |}.

Definition user_response (user_id : string) (mail : option string) : user_data :=
  {| ud_body := Some {| ub_mail := Some mail; ub_id := Some user_id |} |}.

(** The answer of the batch for a group: a body with the members, and so
    without ['mail'] and ['id']. *)
Definition group_response : user_data :=
  {| ud_body := Some {| ub_mail := None; ub_id := None |} |}.

(** Users only: ["u1"] owns the workspace, ["u2"] (without a mail) and
    ["u3"] are researchers, ["u4"] manages the airlock. *)
Definition user_assignments : roles_graph_data :=
  {| rg_value :=
       Some [ role_assignment_doc "owner-role" "u1" "User";
              role_assignment_doc "r-role" "u2" "User";
              role_assignment_doc "r-role" "u3" "User";
              role_assignment_doc "a-role" "u4" "User";
              role_assignment_doc "r-role" "sp9" "ServicePrincipal" ] |}.

Definition user_responses : list user_data :=
  [ user_response "u1" (Some "ada@example.org");
    user_response "u2" None;
    user_response "u3" (Some "grace@example.org");
    user_response "u4" (Some "alan@example.org") ].

Definition directory_of (assignments : roles_graph_data) (responses : list user_data)
    (objects : objects_graph_data) : Directory :=
  {| get_app_role_assigned_to := fun _ _ => Ok assignments;
     get_app_role_assignments := fun url _ =>
       if String.eqb url "https://graph.microsoft.com/v1.0/users/u1/appRoleAssignments"
       then Ok {| rg_value :=
                    Some [ <["resourceId" := "sp1"]> {[ "appRoleId" := "owner-role" ]};
                           <["resourceId" := "sp7"]> {[ "appRoleId" := "r-role" ]} ] |}
       else Ok {| rg_value := None |};
     post_batch := fun _ _ _ => Ok {| ug_responses := Some responses |};
     post_get_by_ids := fun _ _ _ => Ok objects |}.

Definition one_object (identity_type : string) : objects_graph_data :=
  {| og_value := Some [ {| odata_type := Some identity_type |} ] |}.

Definition users_directory : Directory :=
  directory_of user_assignments user_responses (one_object "#microsoft.graph.user").

Definition groups_directory : Directory :=
  directory_of sample_assignments
    [ user_response "u1" (Some "ada@example.org"); group_response;
      user_response "u2" (Some "bob@example.org") ]
    (one_object "#microsoft.graph.group").

Definition sample_details : gmap string (list string) :=
  <["researcher_emails" := ["grace@example.org"]]> {[ "owner_emails" := ["ada@example.org"] ]}.

(** The endpoint of [directoryObjects/getByIds] and the two endpoints of
    app role assignments, as the code spells them. *)
Definition objects_endpoint : string :=
  "https://graph.microsoft.com/v1.0/directoryObjects/getByIds".

Definition sample_user_resource : Resource :=
  {| id := "ur1"; templateName := "tre-user-resource-vm"; templateVersion := "0.2.0";
     properties := {[ "os_image" := "Ubuntu 22.04" ]}; isEnabled := true;
     resourceType := RT_UserResource; resourceVersion := 3 |}.

Definition user_resource_attributes : gmap string string :=
  <["workspaceId" := "ws1"]>
  (<["ownerId" := "u1"]> {[ "parentWorkspaceServiceId" := "svc1" ]}).

(** A user resource whose owner was never set. *)
Definition attributes_without_owner : gmap string string :=
  <["workspaceId" := "ws1"]> {[ "parentWorkspaceServiceId" := "svc1" ]}.


(** The calls made from [st] to [st'] include no request to MSAL for a
    Graph token. *)
Definition no_token_asked (st st' : State) : Prop :=
  exists events, calls st' = calls st ++ events
                 /\ (MsalSilent ∉ events) /\ (MsalForClient ∉ events).

(** ** Properties *)

Lemma py_in_spec `{EqDecision A} (x : A) (l : list A) :
  py_in x l = true <-> In x l.
Proof.
  unfold py_in. rewrite existsb_exists. split.
  - intros (y & Hy & Hb). apply bool_decide_eq_true in Hb. by subst.
  - intros Hx. exists x. split; [done | by apply bool_decide_eq_true].
Qed.

Lemma any_in_spec (roles required : list string) :
  any_in roles required = true <-> exists r, In r roles /\ In r required.
Proof.
  unfold any_in. rewrite existsb_exists.
  split; intros (r & Hr & H); exists r; split; try done; by apply py_in_spec.
Qed.

Lemma any_in_false (roles required : list string) :
  any_in roles required = false <-> forall r, In r roles -> ~ In r required.
Proof.
  rewrite <- not_true_iff_false, any_in_spec. split.
  - intros Hn r Hr Hq. apply Hn. by exists r.
  - intros Hn (r & Hr & Hq). by apply (Hn r).
Qed.

Lemma iter_snoc_length {A} (x : A) (n : nat) (l : list A) :
  length (Nat.iter n (fun l => l ++ [x]) l) = length l + n.
Proof.
  induction n as [|n IH]; simpl; [lia|].
  rewrite length_app, IH. simpl. lia.
Qed.

Lemma iter_snoc_app {A} (x : A) (n : nat) (l : list A) :
  Nat.iter n (fun l => l ++ [x]) l = l ++ repeat x n.
Proof.
  induction n as [|n IH]; simpl.
  - by rewrite app_nil_r.
  - rewrite IH, <- app_assoc. f_equal.
    symmetry. apply repeat_cons.
Qed.

Lemma _ensure_b64padding_app (key : string) :
  _ensure_b64padding key =
  list_byte_of_string key
    ++ repeat x3d (length (list_byte_of_string key) mod 4).
Proof. unfold _ensure_b64padding. apply iter_snoc_app. Qed.

Lemma _ensure_b64padding_length (key : string) :
  length (_ensure_b64padding key) =
  String.length key + String.length key mod 4.
Proof.
  unfold _ensure_b64padding. rewrite iter_snoc_length.
  assert (Hl : forall s, length (list_byte_of_string s) = String.length s).
  { intros s. unfold list_byte_of_string. rewrite length_map.
    induction s as [|c s IH]; simpl; [done | by rewrite IH]. }
  by rewrite Hl.
Qed.

(** *** Padding *)

Lemma _ensure_b64padding_mod4 (key : string) :
  length (_ensure_b64padding key) mod 4 = (2 * (String.length key mod 4)) mod 4.
Proof.
  rewrite _ensure_b64padding_length.
  set (n := String.length key).
  rewrite (Nat.div_mod_eq n 4) at 1.
  replace (4 * (n / 4) + n mod 4 + n mod 4)
    with (2 * (n mod 4) + (n / 4) * 4) by lia.
  apply Nat.Div0.mod_add.
Qed.

(** The padded key has a length that is a multiple of 4 exactly when the
    length of the key is 0 or 2 modulo 4: a key of length 3 modulo 4 gets
    three ['='] where one is missing. *)
Lemma _ensure_b64padding_multiple_of_4 (key : string) :
  length (_ensure_b64padding key) mod 4 = 0 <->
  String.length key mod 4 = 0 \/ String.length key mod 4 = 2.
Proof.
  rewrite _ensure_b64padding_mod4.
  pose proof (Nat.mod_upper_bound (String.length key) 4) as Hlt.
  destruct (String.length key mod 4) as [|[|[|[|r]]]]; simpl; lia.
Qed.

(** C5: on the unpadded key ["abc"] the function appends three ['=']: the
    result is ["abc==="], of length 6, which is not a multiple of 4. *)
Theorem ensure_b64padding_abc :
  _ensure_b64padding "abc" = list_byte_of_string "abc==="
  /\ length (_ensure_b64padding "abc") = 6
  /\ length (_ensure_b64padding "abc") mod 4 <> 0.
Proof. repeat split; try reflexivity. simpl. lia. Qed.

(** *** Workspace roles *)

Lemma subscript_Some {V} (d : gmap string V) (k : string) (v : V) :
  d !! k = Some v -> subscript d k = Ok v.
Proof. intros H. unfold subscript. by rewrite H. Qed.

Lemma present_true {V} (d : gmap string V) (k : string) (v : V) :
  d !! k = Some v -> bool_decide (is_Some (d !! k)) = true.
Proof. intros H. apply bool_decide_eq_true. by rewrite H. Qed.

Lemma present_false {V} (d : gmap string V) (k : string) :
  d !! k = None -> bool_decide (is_Some (d !! k)) = false.
Proof. intros H. apply bool_decide_eq_false. rewrite H. by intros [? ?]. Qed.

Lemma check_required_properties_missing (required : list string)
    (props : gmap string string) (requiredRole : string) :
  In requiredRole required -> props !! requiredRole = None ->
  check_required_properties required props =
  Err (AuthConfigValidationError AUTH_CONFIGURATION_NOT_AVAILABLE_FOR_WORKSPACE).
Proof.
  intros Hin Hnone. induction required as [|r rest IH]; [done|].
  simpl. case_bool_decide as Hr; simpl; [|done].
  destruct Hin as [->|Hin]; [|by apply IH].
  rewrite Hnone in Hr. by destruct Hr.
Qed.

Lemma check_required_properties_present (props : gmap string string)
    (owner researcher manager : string) :
  props !! "app_role_id_workspace_owner" = Some owner ->
  props !! "app_role_id_workspace_researcher" = Some researcher ->
  props !! "app_role_id_workspace_airlock_manager" = Some manager ->
  check_required_properties WORKSPACE_ROLES_DICT_values props = Ok tt.
Proof.
  intros Ho Hr Hm. simpl.
  by rewrite (present_true _ _ _ Ho), (present_true _ _ _ Hr), (present_true _ _ _ Hm).
Qed.

(** The role as a function of the three membership tests, in the order of
    the code. *)
Lemma get_workspace_role_eq (user : User) (workspace : Workspace)
    (assignments : list RoleAssignment) (sp owner researcher manager : string) :
  properties workspace !! "sp_id" = Some sp ->
  properties workspace !! "app_role_id_workspace_owner" = Some owner ->
  properties workspace !! "app_role_id_workspace_researcher" = Some researcher ->
  properties workspace !! "app_role_id_workspace_airlock_manager" = Some manager ->
  get_workspace_role user workspace assignments =
  Ok (if py_in {| resource_id := sp; role_id := owner |} assignments then Owner
      else if py_in {| resource_id := sp; role_id := researcher |} assignments then Researcher
      else if py_in {| resource_id := sp; role_id := manager |} assignments then AirlockManager
      else NoRole).
Proof.
  intros Hsp Ho Hr Hm. unfold get_workspace_role.
  rewrite (present_true _ _ _ Hsp), (subscript_Some _ _ _ Hsp),
    (check_required_properties_present _ _ _ _ Ho Hr Hm),
    (subscript_Some _ _ _ Ho), (subscript_Some _ _ _ Hr), (subscript_Some _ _ _ Hm).
  cbn [negb rbind].
  by repeat destruct (py_in _ assignments).
Qed.

Lemma py_in_false `{EqDecision A} (x : A) (l : list A) :
  ~ In x l -> py_in x l = false.
Proof. intros H. apply not_true_iff_false. by rewrite py_in_spec. Qed.

(** C2, amended: for a workspace whose properties hold ['sp_id'] and the
    three role ids, the role is Owner when the Owner assignment is in the
    list (also when the Researcher assignment is there too), else
    Researcher when the Researcher assignment is, else AirlockManager when
    that one is, and NoRole when none is. *)
Theorem get_workspace_role_priority (user : User) (workspace : Workspace)
    (assignments : list RoleAssignment) (sp owner researcher manager : string) :
  properties workspace !! "sp_id" = Some sp ->
  properties workspace !! "app_role_id_workspace_owner" = Some owner ->
  properties workspace !! "app_role_id_workspace_researcher" = Some researcher ->
  properties workspace !! "app_role_id_workspace_airlock_manager" = Some manager ->
  (In {| resource_id := sp; role_id := owner |} assignments ->
   get_workspace_role user workspace assignments = Ok Owner)
  /\ (In {| resource_id := sp; role_id := owner |} assignments ->
      In {| resource_id := sp; role_id := researcher |} assignments ->
      get_workspace_role user workspace assignments = Ok Owner)
  /\ (~ In {| resource_id := sp; role_id := owner |} assignments ->
      In {| resource_id := sp; role_id := researcher |} assignments ->
      get_workspace_role user workspace assignments = Ok Researcher)
  /\ (~ In {| resource_id := sp; role_id := owner |} assignments ->
      ~ In {| resource_id := sp; role_id := researcher |} assignments ->
      In {| resource_id := sp; role_id := manager |} assignments ->
      get_workspace_role user workspace assignments = Ok AirlockManager)
  /\ (~ In {| resource_id := sp; role_id := owner |} assignments ->
      ~ In {| resource_id := sp; role_id := researcher |} assignments ->
      ~ In {| resource_id := sp; role_id := manager |} assignments ->
      get_workspace_role user workspace assignments = Ok NoRole).
Proof.
  intros Hsp Ho Hr Hm.
  rewrite (get_workspace_role_eq user _ assignments _ _ _ _ Hsp Ho Hr Hm).
  repeat split; intros;
    repeat match goal with
      | H : In _ _ |- _ => apply py_in_spec in H; rewrite H
      | H : ~ In _ _ |- _ => apply py_in_false in H; rewrite H
      end; reflexivity.
Qed.

Lemma get_workspace_role_priority_witness :
  get_workspace_role sample_user sample_workspace owner_and_researcher = Ok Owner.
Proof.
  apply (get_workspace_role_priority sample_user sample_workspace
           owner_and_researcher "sp1" "owner-role" "r-role" "a-role");
    try reflexivity; simpl; auto.
Defined.

(** C2, as stated, fails: the three role ids are configured and no
    assignment matches any of them, yet the result is not NoRole: without
    ['sp_id'] the function raises [AuthConfigValidationError]. *)
Lemma get_workspace_role_three_role_ids_not_enough :
  properties workspace_without_sp_id !! "app_role_id_workspace_owner" = Some "owner-role"
  /\ properties workspace_without_sp_id !! "app_role_id_workspace_researcher" = Some "r-role"
  /\ properties workspace_without_sp_id !! "app_role_id_workspace_airlock_manager" = Some "a-role"
  /\ get_workspace_role sample_user workspace_without_sp_id [] =
     Err (AuthConfigValidationError AUTH_CONFIGURATION_NOT_AVAILABLE_FOR_WORKSPACE)
  /\ get_workspace_role sample_user workspace_without_sp_id [] <> Ok NoRole.
Proof. repeat split; try reflexivity. vm_compute. discriminate. Qed.

(** C8: a workspace whose properties lack one of the three role ids makes
    [get_workspace_role] fail with [AuthConfigValidationError], whatever
    the assignments of the caller. *)
Theorem get_workspace_role_missing_role_id (user : User) (workspace : Workspace)
    (assignments : list RoleAssignment) (requiredRole : string) :
  In requiredRole WORKSPACE_ROLES_DICT_values ->
  properties workspace !! requiredRole = None ->
  get_workspace_role user workspace assignments =
  Err (AuthConfigValidationError AUTH_CONFIGURATION_NOT_AVAILABLE_FOR_WORKSPACE).
Proof.
  intros Hin Hnone. unfold get_workspace_role.
  case_bool_decide as Hsp; cbn [negb]; [|done].
  destruct Hsp as [sp Hsp].
  by rewrite (subscript_Some _ _ _ Hsp),
    (check_required_properties_missing _ _ _ Hin Hnone).
Qed.

Lemma get_workspace_role_missing_role_id_witness :
  get_workspace_role sample_user workspace_without_airlock_manager owner_and_researcher =
  Err (AuthConfigValidationError AUTH_CONFIGURATION_NOT_AVAILABLE_FOR_WORKSPACE).
Proof.
  apply (get_workspace_role_missing_role_id sample_user
           workspace_without_airlock_manager owner_and_researcher
           "app_role_id_workspace_airlock_manager").
  - simpl. auto.
  - reflexivity.
Defined.

(** C9: a workspace without ['sp_id'] makes [get_workspace_role] fail with
    [AuthConfigValidationError] for every list of assignments and whatever
    else its properties hold: no membership test decides the outcome. *)
Theorem get_workspace_role_missing_sp_id (user : User) (workspace : Workspace)
    (assignments : list RoleAssignment) :
  properties workspace !! "sp_id" = None ->
  get_workspace_role user workspace assignments =
  Err (AuthConfigValidationError AUTH_CONFIGURATION_NOT_AVAILABLE_FOR_WORKSPACE).
Proof.
  intros Hsp. unfold get_workspace_role. by rewrite (present_false _ _ Hsp).
Qed.

Lemma get_workspace_role_missing_sp_id_witness :
  check_required_properties WORKSPACE_ROLES_DICT_values
    (properties workspace_without_sp_id) = Ok tt
  /\ get_workspace_role sample_user workspace_without_sp_id owner_and_researcher =
     Err (AuthConfigValidationError AUTH_CONFIGURATION_NOT_AVAILABLE_FOR_WORKSPACE).
Proof.
  split; [reflexivity|].
  apply (get_workspace_role_missing_sp_id sample_user workspace_without_sp_id
           owner_and_researcher).
  reflexivity.
Defined.

(** *** Workspace auth information *)

(** C10: when ['client_id'] is ["auto_create"] the result is the empty
    mapping and the state is unchanged: no call goes out, whatever the
    directory service would answer, although the empty mapping holds none
    of the required role ids. *)
Theorem extract_workspace_auth_information_auto_create
    (data : gmap string string) (env : Env) (st : State) :
  data !! "client_id" = Some "auto_create" ->
  extract_workspace_auth_information data env st = (Ok ∅, st)
  /\ calls (extract_workspace_auth_information data env st).2 = calls st
  /\ check_required_roles WORKSPACE_ROLES_DICT ∅ =
     Err (AuthConfigValidationError (ACCESS_APP_IS_MISSING_ROLE "WorkspaceOwner")).
Proof.
  intros Hid.
  assert (Heq : extract_workspace_auth_information data env st = (Ok ∅, st)).
  { unfold extract_workspace_auth_information.
    rewrite (present_true _ _ _ Hid). simpl.
    unfold mbind, M_bind, lift. by rewrite (subscript_Some _ _ _ Hid). }
  rewrite Heq. repeat split.
Qed.

Lemma extract_workspace_auth_information_auto_create_witness :
  extract_workspace_auth_information auto_create_data provider_admin no_state =
  (Ok ∅, no_state).
Proof.
  apply (extract_workspace_auth_information_auto_create auto_create_data
           provider_admin no_state).
  reflexivity.
Defined.

(** *** State relations through the monad *)

Section Preserves.
Context (R : State -> State -> Prop) `{!Reflexive R} `{!Transitive R}.

Lemma preserves_mret {A} (a : A) : preserves R (mret a).
Proof. intros env st. simpl. reflexivity. Qed.

Lemma preserves_raise {A} (e : exn) : preserves R (@raise A e).
Proof. intros env st. simpl. reflexivity. Qed.

Lemma preserves_lift {A} (r : result A) : preserves R (lift r).
Proof. intros env st. simpl. reflexivity. Qed.

Lemma preserves_ask : preserves R ask.
Proof. intros env st. simpl. reflexivity. Qed.

Lemma preserves_get_keys : preserves R get_keys.
Proof. intros env st. simpl. reflexivity. Qed.

Lemma preserves_bind {A B} (m : M A) (k : A -> M B) :
  preserves R m -> (forall a, preserves R (k a)) -> preserves R (m ≫= k).
Proof.
  intros Hm Hk env st. unfold mbind, M_bind.
  specialize (Hm env st).
  destruct (m env st) as [[a|e] st1]; simpl in *; [|done].
  etransitivity; [exact Hm | apply Hk].
Qed.

Lemma preserves_fmap {A B} (f : A -> B) (m : M A) :
  preserves R m -> preserves R (f <$> m).
Proof.
  intros Hm env st. unfold fmap, M_fmap.
  specialize (Hm env st).
  by destruct (m env st) as [[a|e] st1].
Qed.

Lemma preserves_try_except {A} (body : M A) (handler : exn -> option (M A)) :
  preserves R body ->
  (forall e h, handler e = Some h -> preserves R h) ->
  preserves R (try_except body handler).
Proof.
  intros Hb Hh env st. unfold try_except.
  specialize (Hb env st).
  destruct (body env st) as [[a|e] st1]; simpl in *; [done|].
  destruct (handler e) as [h|] eqn:He; simpl; [|done].
  etransitivity; [exact Hb | by apply (Hh e h)].
Qed.

Lemma preserves_for_each {A} (l : list A) (body : A -> M unit) :
  (forall x, preserves R (body x)) -> preserves R (for_each l body).
Proof.
  intros Hb. induction l as [|x l IH]; simpl.
  - apply preserves_mret.
  - apply preserves_bind; [apply Hb | intros _; apply IH].
Qed.
End Preserves.

#[global] Instance keys_kept_refl : Reflexive keys_kept.
Proof. by intros st kid. Qed.

#[global] Instance keys_kept_trans : Transitive keys_kept.
Proof. intros s1 s2 s3 H12 H23 kid Hk. by apply H23, H12. Qed.

#[global] Instance same_calls_refl : Reflexive same_calls.
Proof. by intros st. Qed.

#[global] Instance same_calls_trans : Transitive same_calls.
Proof. unfold same_calls. intros s1 s2 s3 H12 H23. by rewrite H23. Qed.

Lemma store_key_keys_kept (kid : string) (pem : list byte) :
  preserves keys_kept (store_key kid pem).
Proof.
  intros env st k Hk. simpl.
  destruct (decide (kid = k)) as [->|Hne].
  - rewrite lookup_insert_eq. by eexists.
  - by rewrite lookup_insert_ne.
Qed.

Lemma log_keys_kept (c : call_event) : preserves keys_kept (log c).
Proof. by intros env st k Hk. Qed.

Lemma store_key_same_calls (kid : string) (pem : list byte) :
  preserves same_calls (store_key kid pem).
Proof. by intros env st. Qed.

Create HintDb preserves.

(** One step of a proof that a computation of the service preserves a
    relation: split binds, handlers and loops, branch on tests. *)
Ltac preserves_step :=
  match goal with
  | |- Reflexive _ => apply _
  | |- Transitive _ => apply _
  | |- preserves _ (mret _) => apply preserves_mret
  | |- preserves _ (raise _) => apply preserves_raise
  | |- preserves _ (lift _) => apply preserves_lift
  | |- preserves _ ask => apply preserves_ask
  | |- preserves _ get_keys => apply preserves_get_keys
  | |- preserves keys_kept (store_key _ _) => apply store_key_keys_kept
  | |- preserves same_calls (store_key _ _) => apply store_key_same_calls
  | |- preserves keys_kept (log _) => apply log_keys_kept
  | |- preserves _ (_ ≫= _) => apply preserves_bind
  | |- preserves _ (_ <$> _) => apply preserves_fmap
  | |- preserves _ (for_each _ _) => apply preserves_for_each
  | |- preserves _ (try_except _ _) => apply preserves_try_except
  | |- preserves _ (if ?b then _ else _) => destruct b
  | |- preserves _ (match ?x with _ => _ end) => destruct x
  | |- preserves _ _ => solve [auto with preserves]
  | |- forall e h, _ = Some h -> preserves _ h =>
      let H := fresh in intros ? ? H; repeat case_match; simplify_eq
  | |- forall _, preserves _ _ => intros ?
  end.

Ltac preserves_auto := cbv zeta; repeat preserves_step.

Lemma cache_key_keys_kept (key : jwk) : preserves keys_kept (cache_key key).
Proof. unfold cache_key. preserves_auto. Qed.

Lemma cache_key_same_calls (key : jwk) : preserves same_calls (cache_key key).
Proof. unfold cache_key. preserves_auto. Qed.

#[global] Hint Resolve cache_key_keys_kept cache_key_same_calls : preserves.

Lemma refresh_keys_keys_kept : preserves keys_kept refresh_keys.
Proof. unfold refresh_keys. preserves_auto. Qed.

Lemma _get_token_key_keys_kept (key_id : option string) :
  preserves keys_kept (_get_token_key key_id).
Proof.
  pose proof refresh_keys_keys_kept.
  unfold _get_token_key. preserves_auto.
Qed.

Lemma _decode_token_keys_kept (token : option string) (audience : string) :
  preserves keys_kept (_decode_token token audience).
Proof.
  pose proof _get_token_key_keys_kept.
  unfold _decode_token, _get_key_id. preserves_auto.
Qed.

#[global] Hint Resolve refresh_keys_keys_kept _get_token_key_keys_kept
  _decode_token_keys_kept : preserves.

Lemma _fetch_ws_app_reg_id_from_ws_id_keys_kept (request : Request) :
  preserves keys_kept (_fetch_ws_app_reg_id_from_ws_id request).
Proof. unfold _fetch_ws_app_reg_id_from_ws_id. preserves_auto. Qed.

#[global] Hint Resolve _fetch_ws_app_reg_id_from_ws_id_keys_kept : preserves.

Lemma decode_with_either_keys_kept (self : AzureADAuthorization)
    (request : Request) (token : option string) :
  preserves keys_kept (decode_with_either self request token).
Proof.
  unfold decode_with_either, try_workspace_app_registration,
    try_core_app_registration.
  preserves_auto.
Qed.

Lemma authorize_keys_kept (self : AzureADAuthorization) (d : option Claims) :
  preserves keys_kept (authorize self d).
Proof. unfold authorize. preserves_auto. Qed.

#[global] Hint Resolve decode_with_either_keys_kept authorize_keys_kept : preserves.


Lemma _get_app_auth_info_keys_kept (client_id : string) :
  preserves keys_kept (_get_app_auth_info client_id).
Proof.
  unfold _get_app_auth_info, _get_app_sp_graph_data, _get_msgraph_token.
  preserves_auto.
Qed.

#[global] Hint Resolve _get_app_auth_info_keys_kept : preserves.



(** *** The key cache *)



(** On a miss the lookup is the refresh followed by the subscript. *)
Lemma _get_token_key_miss (env : Env) (st : State) (key_id : option string) :
  key_in key_id (_jwt_keys st) = false ->
  _get_token_key key_id env st =
  match refresh_keys env st with
  | (Ok _, st') => (key_subscript (_jwt_keys st') key_id, st')
  | (Err e, st') => (Err e, st')
  end.
Proof.
  intros H. unfold _get_token_key, mbind, M_bind, get_keys. rewrite H. simpl.
  by destruct (refresh_keys env st) as [[[]|e] st'].
Qed.

Lemma key_subscript_absent (keys : gmap string (list byte)) (key_id : option string) :
  key_in key_id keys = false -> key_subscript keys key_id = Err (KeyError key_id).
Proof.
  destruct key_id as [k|]; simpl; [|done].
  intros H. apply bool_decide_eq_false in H. unfold subscript.
  destruct (keys !! k) as [v|] eqn:Hk; [|done].
  destruct H. by eexists.
Qed.

Lemma for_each_cache_key_same_calls (ks : list jwk) (env : Env) (st : State) :
  calls (for_each ks cache_key env st).2 = calls st.
Proof.
  apply (preserves_for_each same_calls ks cache_key cache_key_same_calls env st).
Qed.

(** A refresh makes at most two calls, both HTTP GETs: the metadata
    document, then the key set. *)
Lemma refresh_keys_calls (env : Env) (st : State) :
  exists urls, calls (refresh_keys env st).2 = calls st ++ map HttpGet urls
               /\ length urls <= 2.
Proof.
  unfold refresh_keys, mbind, M_bind, fmap, M_fmap, ask, log, lift, mret, M_ret.
  simpl.
  repeat (case_match; simplify_eq; simpl in * );
    rewrite ?for_each_cache_key_same_calls; simpl;
    try (eexists [_]; split; [reflexivity | simpl; lia]);
    try (eexists [_; _]; split; [by rewrite <- app_assoc | simpl; lia]).
Qed.

(** C7: when the key id is absent before the refresh and still absent after
    a refresh that ran to its end, the lookup raises [KeyError] for that key
    id, in the state the refresh left; the refresh made at most two calls,
    so the lookup was attempted once after it and did not loop. *)
Theorem _get_token_key_still_absent (key_id : option string) (env : Env)
    (st st' : State) :
  key_in key_id (_jwt_keys st) = false ->
  refresh_keys env st = (Ok tt, st') ->
  key_in key_id (_jwt_keys st') = false ->
  _get_token_key key_id env st = (Err (KeyError key_id), st')
  /\ exists urls, calls st' = calls st ++ map HttpGet urls /\ length urls <= 2.
Proof.
  intros Hmiss Hrefresh Habsent. split.
  - rewrite (_get_token_key_miss _ _ _ Hmiss), Hrefresh.
    by rewrite (key_subscript_absent _ _ Habsent).
  - pose proof (refresh_keys_calls env st) as Hc. by rewrite Hrefresh in Hc.
Qed.

Lemma _get_token_key_still_absent_witness :
  _get_token_key (Some "k9") provider_admin no_state =
  (Err (KeyError (Some "k9")), (refresh_keys provider_admin no_state).2)
  /\ _jwt_keys (refresh_keys provider_admin no_state).2 !! "k1" =
     Some (sample_save_pkcs1 65539 65537).
Proof.
  split; [|reflexivity].
  apply (_get_token_key_still_absent (Some "k9") provider_admin no_state
           (refresh_keys provider_admin no_state).2); reflexivity.
Defined.




(** *** The authorization gate ([__call__]) *)

Lemma py_any_in_Some (roles required : list string) :
  py_any_in roles (Some required) = Ok (any_in roles required).
Proof. by destruct roles. Qed.

(** With a token from the OAuth2 scheme, [__call__] is the two decoding
    attempts followed by the authorization. *)
Lemma call_eq (self : AzureADAuthorization) (request : Request) (env : Env)
    (st : State) (token : option string) :
  oauth2_scheme env (auto_error self) request = Ok token ->
  call self request env st =
  match decode_with_either self request token env st with
  | (Ok decoded_token, st') => authorize self decoded_token env st'
  | (Err e, st') => (Err e, st')
  end.
Proof.
  intros H. unfold call, mbind, M_bind, ask, lift. by rewrite H.
Qed.

(** Once a token is decoded and the user built from it, the outcome is
    decided by the any-of test on the user's roles. *)
Lemma authorize_decoded (self : AzureADAuthorization) (decoded_token : Claims)
    (user : User) (required : list string) (env : Env) (st : State) :
  _get_user_from_token decoded_token = Ok user ->
  require_one_of_roles self = Some required ->
  authorize self (Some decoded_token) env st =
  if any_in (user_roles user) required then (Ok user, st)
  else (Err (forbidden self), st).
Proof.
  intros Hu Hr. unfold authorize, mbind, M_bind, try_except, lift, raise.
  rewrite Hu, Hr, py_any_in_Some.
  by destruct (any_in (user_roles user) required).
Qed.

(** No decoded token: 401. *)
Lemma authorize_undecoded (self : AzureADAuthorization) (env : Env) (st : State) :
  authorize self None env st =
  (Err (HTTPException HTTP_401_UNAUTHORIZED AUTH_UNABLE_TO_VALIDATE_TOKEN false), st).
Proof. reflexivity. Qed.

(** A decoding attempt can only succeed when the gate was given a list of
    required roles. *)
Lemma decode_with_either_required (self : AzureADAuthorization) (request : Request)
    (token : option string) (env : Env) (st st' : State) (decoded_token : option Claims) :
  decode_with_either self request token env st = (Ok decoded_token, st') ->
  exists required, require_one_of_roles self = Some required.
Proof.
  destruct (require_one_of_roles self) as [required|] eqn:Hr; [by eexists|].
  unfold decode_with_either, try_workspace_app_registration,
    try_core_app_registration, mbind, M_bind, lift, mret, M_ret.
  rewrite Hr. simpl. by case_bool_decide.
Qed.

(** C3: when a decoding attempt succeeds and a user is built from the
    decoded token, the gate returns that user exactly when one of the
    user's roles is among the required roles, and raises the 403 fault when
    none is. *)
Theorem call_allows_iff_roles_intersect (self : AzureADAuthorization)
    (request : Request) (env : Env) (st st' : State) (token : option string)
    (decoded_token : Claims) (user : User) :
  oauth2_scheme env (auto_error self) request = Ok token ->
  decode_with_either self request token env st = (Ok (Some decoded_token), st') ->
  _get_user_from_token decoded_token = Ok user ->
  exists required,
    require_one_of_roles self = Some required
    /\ (call self request env st = (Ok user, st') <->
        exists role, In role (user_roles user) /\ In role required)
    /\ ((forall role, In role (user_roles user) -> ~ In role required) ->
        call self request env st =
        (Err (HTTPException HTTP_403_FORBIDDEN
                (ACCESS_USER_DOES_NOT_HAVE_REQUIRED_ROLE (Some required)) true), st')).
Proof.
  intros Htoken Hdecode Huser.
  destruct (decode_with_either_required _ _ _ _ _ _ _ Hdecode) as [required Hr].
  exists required. split; [done|].
  rewrite (call_eq _ _ _ _ _ Htoken), Hdecode,
    (authorize_decoded _ _ _ _ _ _ Huser Hr).
  unfold forbidden. rewrite Hr. split.
  - rewrite <- any_in_spec.
    destruct (any_in (user_roles user) required); [done|].
    split; intros; congruence.
  - intros Hnone. apply any_in_false in Hnone. by rewrite Hnone.
Qed.

Lemma call_allows_iff_roles_intersect_witness :
  exists required,
    require_one_of_roles core_gate = Some required
    /\ (call core_gate (bearer_request ∅) provider_admin no_state =
          (Ok {| user_id := "u1"; user_name := ""; user_email := "";
                 user_roles := ["TREAdmin"] |},
           (_get_token_key (Some "k1") provider_admin no_state).2) <->
        exists role, In role ["TREAdmin"] /\ In role required)
    /\ ((forall role, In role ["TREAdmin"] -> ~ In role required) ->
        call core_gate (bearer_request ∅) provider_admin no_state =
        (Err (HTTPException HTTP_403_FORBIDDEN
                (ACCESS_USER_DOES_NOT_HAVE_REQUIRED_ROLE (Some required)) true),
         (_get_token_key (Some "k1") provider_admin no_state).2)).
Proof.
  apply (call_allows_iff_roles_intersect core_gate (bearer_request ∅)
           provider_admin no_state
           (_get_token_key (Some "k1") provider_admin no_state).2
           (Some "eyJ0eXAi") admin_claims
           {| user_id := "u1"; user_name := ""; user_email := "";
              user_roles := ["TREAdmin"] |});
    reflexivity.
Defined.

(** The scenario of the specification: a core token of a TRE administrator
    is allowed on an endpoint that requires TREAdmin or TREUser. *)
Example call_allows_admin :
  (call core_gate (bearer_request ∅) provider_admin no_state).1 =
  Ok {| user_id := "u1"; user_name := ""; user_email := "";
        user_roles := ["TREAdmin"] |}.
Proof. reflexivity. Qed.

(** When neither attempt yields a decoded token and none raises, the gate
    raises the 401 fault. *)
Lemma call_unauthenticated (self : AzureADAuthorization) (request : Request)
    (env : Env) (st st' : State) (token : option string) :
  oauth2_scheme env (auto_error self) request = Ok token ->
  decode_with_either self request token env st = (Ok None, st') ->
  call self request env st =
  (Err (HTTPException HTTP_401_UNAUTHORIZED AUTH_UNABLE_TO_VALIDATE_TOKEN false), st').
Proof.
  intros Htoken Hdecode. by rewrite (call_eq _ _ _ _ _ Htoken), Hdecode.
Qed.

(** The attempt against the API's app registration swallows
    [InvalidSignatureError] only: every other exception of the decoding
    leaves it as it was raised. *)
Lemma try_core_app_registration_raises (self : AzureADAuthorization)
    (token : option string) (env : Env) (st st' : State) (e : exn) :
  py_any_in TRE_CORE_ROLES (require_one_of_roles self) = Ok true ->
  _decode_token token (API_AUDIENCE (config env)) env st = (Err e, st') ->
  try_core_app_registration self token None env st =
  if is_InvalidSignatureError e then (Ok None, st') else (Err e, st').
Proof.
  intros Hany Hdec.
  unfold try_core_app_registration, mbind, M_bind, lift, ask, try_except,
    fmap, M_fmap.
  rewrite Hany, Hdec. by destruct e.
Qed.

(** The attempt against the workspace's app registration never raises once
    the gate has a list of required roles: whatever the lookup or the
    decoding raises, the 404 of the lookup included, is swallowed. *)
Lemma try_workspace_app_registration_swallows (self : AzureADAuthorization)
    (request : Request) (token : option string) (env : Env) (st : State)
    (required : list string) :
  require_one_of_roles self = Some required ->
  exists decoded_token st',
    try_workspace_app_registration self request token env st = (Ok decoded_token, st').
Proof.
  intros Hr.
  unfold try_workspace_app_registration, mbind, M_bind, lift, try_except,
    fmap, M_fmap, mret, M_ret.
  rewrite Hr, py_any_in_Some.
  repeat (case_match; simplify_eq); eauto.
Qed.

(** The lookup itself does raise the 404 fault for a workspace the
    repository does not know. *)
Lemma _fetch_ws_app_reg_id_from_ws_id_not_found (request : Request) (env : Env)
    (st : State) (workspace_id : string) :
  path_params request !! "workspace_id" = Some workspace_id ->
  get_workspace_by_id env workspace_id = Err EntityDoesNotExist ->
  _fetch_ws_app_reg_id_from_ws_id request env st =
  (Err (HTTPException HTTP_404_NOT_FOUND WORKSPACE_DOES_NOT_EXIST false),
   {| _jwt_keys := _jwt_keys st; calls := calls st ++ [DbGetWorkspace workspace_id] |}).
Proof.
  intros Hid Hrepo. unfold _fetch_ws_app_reg_id_from_ws_id.
  rewrite (present_true _ _ _ Hid). simpl.
  unfold try_except, mbind, M_bind, lift, ask, log, raise.
  by rewrite (subscript_Some _ _ _ Hid), Hrepo.
Qed.

(** The gate when the workspace attempt gave nothing and the core attempt
    fails with [e]: the 401 fault for [InvalidSignatureError], [e] itself
    for every other exception. *)
Lemma call_core_attempt_fails (self : AzureADAuthorization) (request : Request)
    (env : Env) (st st1 st' : State) (token : option string) (e : exn) :
  oauth2_scheme env (auto_error self) request = Ok token ->
  try_workspace_app_registration self request token env st = (Ok None, st1) ->
  py_any_in TRE_CORE_ROLES (require_one_of_roles self) = Ok true ->
  _decode_token token (API_AUDIENCE (config env)) env st1 = (Err e, st') ->
  call self request env st =
  if is_InvalidSignatureError e
  then (Err (HTTPException HTTP_401_UNAUTHORIZED AUTH_UNABLE_TO_VALIDATE_TOKEN false), st')
  else (Err e, st').
Proof.
  intros Htoken Hws Hany Hdec.
  rewrite (call_eq _ _ _ _ _ Htoken).
  unfold decode_with_either, mbind at 1, M_bind at 1. rewrite Hws.
  rewrite (try_core_app_registration_raises _ _ _ _ _ _ Hany Hdec).
  by destruct (is_InvalidSignatureError e).
Qed.

(** The gate on an endpoint that accepts workspace roles only, for a
    workspace the repository does not know: the 401 fault, after the one
    call to the repository. *)
Lemma call_workspace_not_found (self : AzureADAuthorization) (request : Request)
    (env : Env) (st : State) (token : option string) (workspace_id : string)
    (required : list string) :
  oauth2_scheme env (auto_error self) request = Ok token ->
  path_params request !! "workspace_id" = Some workspace_id ->
  get_workspace_by_id env workspace_id = Err EntityDoesNotExist ->
  require_one_of_roles self = Some required ->
  any_in WORKSPACE_ROLES_DICT_keys required = true ->
  any_in TRE_CORE_ROLES required = false ->
  call self request env st =
  (Err (HTTPException HTTP_401_UNAUTHORIZED AUTH_UNABLE_TO_VALIDATE_TOKEN false),
   {| _jwt_keys := _jwt_keys st; calls := calls st ++ [DbGetWorkspace workspace_id] |}).
Proof.
  intros Htoken Hid Hrepo Hr Hws Hcore.
  rewrite (call_eq _ _ _ _ _ Htoken).
  unfold decode_with_either, try_workspace_app_registration,
    try_core_app_registration.
  rewrite (present_true _ _ _ Hid), Hr, !py_any_in_Some, Hws, Hcore.
  unfold mbind, M_bind, lift, try_except.
  by rewrite (_fetch_ws_app_reg_id_from_ws_id_not_found _ _ _ _ Hid Hrepo).
Qed.

(** C1: an endpoint that requires a core role, called with a token issued
    for another audience: the only applicable attempt fails with
    [InvalidAudienceError], and the gate lets that exception through
    instead of raising the 401 fault. *)
Theorem call_lets_audience_error_through :
  (decode_with_either core_gate (bearer_request ∅) (Some "eyJ0eXAi")
     provider_other_audience no_state).1 = Err InvalidAudienceError
  /\ (call core_gate (bearer_request ∅) provider_other_audience no_state).1 =
     Err InvalidAudienceError
  /\ (call core_gate (bearer_request ∅) provider_other_audience no_state).1 <>
     Err (HTTPException HTTP_401_UNAUTHORIZED AUTH_UNABLE_TO_VALIDATE_TOKEN false).
Proof. repeat split; try reflexivity. vm_compute. discriminate. Qed.

(** C4: a request for a workspace the repository does not know, on an
    endpoint that requires a workspace role: the lookup raises the 404
    fault, the gate swallows it and raises the 401 fault. *)
Theorem call_swallows_workspace_not_found :
  (_fetch_ws_app_reg_id_from_ws_id (bearer_request {[ "workspace_id" := "ws1" ]})
     provider_admin no_state).1 =
  Err (HTTPException HTTP_404_NOT_FOUND WORKSPACE_DOES_NOT_EXIST false)
  /\ (call workspace_gate (bearer_request {[ "workspace_id" := "ws1" ]})
        provider_admin no_state).1 =
     Err (HTTPException HTTP_401_UNAUTHORIZED AUTH_UNABLE_TO_VALIDATE_TOKEN false).
Proof. split; reflexivity. Qed.

(** *** Inversion of computations that return *)

Lemma bind_Ok {A B} (m : M A) (k : A -> M B) (env : Env) (st st' : State) (b : B) :
  (m ≫= k) env st = (Ok b, st') ->
  exists a st1, m env st = (Ok a, st1) /\ k a env st1 = (Ok b, st').
Proof.
  unfold mbind, M_bind. destruct (m env st) as [[a|e] st1]; [|done].
  intros H. by exists a, st1.
Qed.


Lemma lift_Ok {A} (r : result A) (env : Env) (st st' : State) (a : A) :
  lift r env st = (Ok a, st') -> r = Ok a /\ st' = st.
Proof. unfold lift. intros H. by simplify_eq. Qed.


Lemma subscript_Ok {V} (d : gmap string V) (k : string) (v : V) :
  subscript d k = Ok v -> d !! k = Some v.
Proof. unfold subscript. destruct (d !! k); intros H; by simplify_eq. Qed.

Lemma dict_truthy_lookup {V} (d : gmap string V) (k : string) (v : V) :
  d !! k = Some v -> dict_truthy d = true.
Proof.
  intros H. unfold dict_truthy. apply negb_true_iff, bool_decide_eq_false.
  intros Hd. apply dom_empty_inv_L in Hd. subst. by rewrite lookup_empty in H.
Qed.

(** *** Key lookups *)

Lemma _get_token_key_Ok (key_id : option string) (env : Env) (st st' : State)
    (pem : list byte) :
  _get_token_key key_id env st = (Ok pem, st') ->
  key_subscript (_jwt_keys st') key_id = Ok pem.
Proof.
  unfold _get_token_key. intros H.
  apply bind_Ok in H as (keys & st1 & Hk & H). unfold get_keys in Hk. simplify_eq.
  apply bind_Ok in H as ([] & st2 & _ & H).
  apply bind_Ok in H as (keys & st3 & Hk & H). unfold get_keys in Hk. simplify_eq.
  by apply lift_Ok in H as [H ->].
Qed.



Lemma _get_key_id_eq (token : option string) (env : Env) (st : State) :
  _get_key_id token env st =
  (match get_unverified_header env token with
   | Ok headers => Ok (headers !! "kid")
   | Err e => Err e
   end, st).
Proof.
  unfold _get_key_id, mbind, M_bind, ask, lift, fmap, M_fmap, mret, M_ret.
  destruct (get_unverified_header env token) as [headers|e]; [|done].
  destruct (headers !! "kid") as [kid|] eqn:Hk.
  - rewrite (dict_truthy_lookup _ _ _ Hk), (subscript_Some _ _ _ Hk).
    by rewrite bool_decide_eq_true_2 by eauto.
  - rewrite bool_decide_eq_false_2; [by rewrite andb_false_r | by intros [? ?]].
Qed.

(** X2: a token is decoded only after verification: when [_decode_token]
    returns claims, the token's header names a key id, the cache now holds
    material under that key id, and [jwt.decode] returned those claims for
    that material and the audience asked. *)
Theorem _decode_token_verified (token : option string) (audience : string)
    (env : Env) (st st' : State) (claims : Claims) :
  _decode_token token audience env st = (Ok claims, st') ->
  exists headers kid key,
    get_unverified_header env token = Ok headers
    /\ headers !! "kid" = Some kid
    /\ _jwt_keys st' !! kid = Some key
    /\ jwt_decode env token key audience = Ok claims.
Proof.
  unfold _decode_token. intros H.
  apply bind_Ok in H as (key_id & st1 & Hid & H).
  rewrite _get_key_id_eq in Hid.
  destruct (get_unverified_header env token) as [headers|e] eqn:Hh; [|done].
  simplify_eq.
  apply bind_Ok in H as (key & st2 & Hkey & H).
  apply bind_Ok in H as (env' & st3 & Hask & H). unfold ask in Hask. simplify_eq.
  apply lift_Ok in H as [H ->].
  apply _get_token_key_Ok in Hkey.
  destruct (headers !! "kid") as [kid|] eqn:Hk; [|done].
  simpl in Hkey. apply subscript_Ok in Hkey.
  by exists headers, kid, key.
Qed.

Lemma _decode_token_verified_witness :
  exists headers kid key,
    get_unverified_header provider_admin (Some "eyJ0eXAi") = Ok headers
    /\ headers !! "kid" = Some kid
    /\ _jwt_keys (_get_token_key (Some "k1") provider_admin no_state).2 !! kid = Some key
    /\ jwt_decode provider_admin (Some "eyJ0eXAi") key "api://tre-api" = Ok admin_claims.
Proof.
  apply (_decode_token_verified (Some "eyJ0eXAi") "api://tre-api" provider_admin
           no_state (_get_token_key (Some "k1") provider_admin no_state).2 admin_claims).
  reflexivity.
Defined.

(** X3: a token whose header has no ['kid'] is never decoded: whatever the
    cache holds, the lookup refreshes the keys and then raises
    [KeyError(None)] (or what the refresh raised); [jwt.decode] is not
    reached. *)
Theorem _decode_token_without_kid (token : option string) (audience : string)
    (env : Env) (st : State) (headers : gmap string string) :
  get_unverified_header env token = Ok headers ->
  headers !! "kid" = None ->
  _decode_token token audience env st =
  match refresh_keys env st with
  | (Ok _, st') => (Err (KeyError None), st')
  | (Err e, st') => (Err e, st')
  end.
Proof.
  intros Hh Hk. unfold _decode_token, mbind at 1, M_bind at 1.
  rewrite _get_key_id_eq, Hh, Hk.
  unfold mbind, M_bind.
  rewrite (_get_token_key_miss env st None eq_refl).
  by destruct (refresh_keys env st) as [[[]|e] st'].
Qed.

Lemma _decode_token_without_kid_witness :
  _decode_token (Some "eyJ0eXAi") "api://tre-api" provider_without_kid
    (_get_token_key (Some "k1") provider_admin no_state).2 =
  (Err (KeyError None),
   (refresh_keys provider_without_kid
      (_get_token_key (Some "k1") provider_admin no_state).2).2).
Proof.
  apply (_decode_token_without_kid (Some "eyJ0eXAi") "api://tre-api"
           provider_without_kid
           (_get_token_key (Some "k1") provider_admin no_state).2
           {[ "alg" := "RS256" ]});
    reflexivity.
Defined.

(** *** Refreshing the keys *)

(** X4: when the metadata endpoint answers with an error status, or its
    document has no ['jwks_uri'], a lookup of an uncached key id makes that
    one call, stores nothing, does not ask for the key set, and raises
    [KeyError] for the key id. *)
Theorem _get_token_key_metadata_unusable (key_id : option string) (env : Env)
    (st : State) (r : response (gmap string string)) :
  key_in key_id (_jwt_keys st) = false ->
  get_openid_configuration env (openid_configuration_url (config env)) = Ok r ->
  ok r = false \/ (exists md, ok r = true /\ json r = Ok md /\ md !! "jwks_uri" = None) ->
  _get_token_key key_id env st =
  (Err (KeyError key_id),
   logged st [HttpGet (openid_configuration_url (config env))]).
Proof.
  intros Hmiss Hget Hbad.
  rewrite (_get_token_key_miss _ _ _ Hmiss).
  assert (Hr : refresh_keys env st =
               (Ok tt, logged st [HttpGet (openid_configuration_url (config env))])).
  { unfold refresh_keys, mbind, M_bind, fmap, M_fmap, ask, log, lift, mret, M_ret.
    rewrite Hget.
    destruct Hbad as [Hok | (md & Hok & Hjson & Hnone)]; rewrite Hok; [done|].
    rewrite Hjson, Hnone.
    by destruct (dict_truthy md && bool_decide (is_Some (None : option string))). }
  rewrite Hr. simpl. by rewrite (key_subscript_absent _ _ Hmiss).
Qed.

Lemma _get_token_key_metadata_unusable_witness :
  _get_token_key (Some "k1") provider_metadata_down no_state =
  (Err (KeyError (Some "k1")),
   logged no_state
     [HttpGet (openid_configuration_url (config provider_metadata_down))]).
Proof.
  apply (_get_token_key_metadata_unusable (Some "k1") provider_metadata_down no_state
           {| ok := false; json := Err (CollaboratorError "JSONDecodeError") |}).
  - reflexivity.
  - reflexivity.
  - left. reflexivity.
Defined.

Lemma cache_key_Ok (key : jwk) (env : Env) (st st' : State) :
  cache_key key env st = (Ok tt, st') ->
  exists kid, key !! "kid" = Some kid /\ is_Some (_jwt_keys st' !! kid).
Proof.
  unfold cache_key, mbind, M_bind, ask, lift, store_key. intros H.
  repeat (case_match; simplify_eq).
  match goal with Hk : subscript key "kid" = Ok ?k |- _ =>
    exists k; split; [by apply subscript_Ok|] end.
  simpl. rewrite lookup_insert_eq. by eexists.
Qed.

Lemma for_each_cache_key_Ok (ks : list jwk) (env : Env) (st st' : State) :
  for_each ks cache_key env st = (Ok tt, st') ->
  forall key, In key ks ->
  exists kid, key !! "kid" = Some kid /\ is_Some (_jwt_keys st' !! kid).
Proof.
  revert st. induction ks as [|k ks IH]; intros st H key Hin; [done|].
  simpl in H. apply bind_Ok in H as ([] & st1 & Hk & H).
  destruct Hin as [->|Hin]; [|by apply (IH st1)].
  destruct (cache_key_Ok _ _ _ _ Hk) as (kid & Hkid & Hsome).
  exists kid. split; [done|].
  pose proof (preserves_for_each keys_kept ks cache_key cache_key_keys_kept env st1) as Hkept.
  rewrite H in Hkept. by apply Hkept.
Qed.

(** X5: a refresh that runs to its end stores every key of the key set the
    provider answered, not only the one asked for: each record's ['kid'] is
    in the cache afterwards, and the two GETs are the only calls. *)
Theorem refresh_keys_caches_key_set (env : Env) (st st' : State)
    (r : response (gmap string string)) (md : gmap string string) (uri : string)
    (r' : response (gmap string (list jwk))) (doc : gmap string (list jwk))
    (ks : list jwk) :
  get_openid_configuration env (openid_configuration_url (config env)) = Ok r ->
  ok r = true -> json r = Ok md -> md !! "jwks_uri" = Some uri -> uri <> "" ->
  get_jwks env uri = Ok r' ->
  ok r' = true -> json r' = Ok doc -> doc !! "keys" = Some ks ->
  refresh_keys env st = (Ok tt, st') ->
  (forall key, In key ks ->
     exists kid, key !! "kid" = Some kid /\ is_Some (_jwt_keys st' !! kid))
  /\ calls st' =
     calls st ++ [HttpGet (openid_configuration_url (config env)); HttpGet uri].
Proof.
  intros Hget Hok Hjson Huri Hne Hget' Hok' Hjson' Hks.
  unfold refresh_keys, mbind at 1 2 3 4, M_bind at 1 2 3 4, fmap, M_fmap, ask, log, lift.
  rewrite Hget, Hok, Hjson. simpl.
  rewrite (dict_truthy_lookup _ _ _ Huri), (present_true _ _ _ Huri), Huri. simpl.
  assert (Htr : str_truthy uri = true).
  { unfold str_truthy. by rewrite bool_decide_eq_false_2. }
  rewrite Htr.
  unfold mbind at 1 2 3, M_bind at 1 2 3, fmap, M_fmap, log, lift.
  rewrite Hget', Hok', Hjson'. simpl.
  rewrite (dict_truthy_lookup _ _ _ Hks), (present_true _ _ _ Hks). simpl.
  unfold mbind at 1, M_bind at 1, lift. rewrite (subscript_Some _ _ _ Hks).
  intros Hfor. split.
  - by apply (for_each_cache_key_Ok _ _ _ _ Hfor).
  - pose proof (for_each_cache_key_same_calls ks env
      {| _jwt_keys := _jwt_keys st;
         calls := (calls st ++ [HttpGet (openid_configuration_url (config env))])
                    ++ [HttpGet uri] |}) as Hc.
    rewrite Hfor in Hc. simpl in Hc. by rewrite Hc, <- app_assoc.
Qed.

Lemma refresh_keys_caches_key_set_witness :
  (forall key, In key keys_after_rotation ->
     exists kid, key !! "kid" = Some kid
                 /\ is_Some (_jwt_keys (refresh_keys provider_after_rotation no_state).2 !! kid))
  /\ calls (refresh_keys provider_after_rotation no_state).2 =
     calls no_state
       ++ [HttpGet (openid_configuration_url (config provider_after_rotation));
           HttpGet jwks_uri_of_provider].
Proof.
  apply (refresh_keys_caches_key_set provider_after_rotation no_state
           (refresh_keys provider_after_rotation no_state).2
           {| ok := true; json := Ok {[ "jwks_uri" := jwks_uri_of_provider ]} |}
           {[ "jwks_uri" := jwks_uri_of_provider ]} jwks_uri_of_provider
           {| ok := true; json := Ok {[ "keys" := keys_after_rotation ]} |}
           {[ "keys" := keys_after_rotation ]} keys_after_rotation);
    try reflexivity.
  discriminate.
Defined.

Lemma for_each_app {A} (l1 l2 : list A) (body : A -> M unit) (env : Env) (st : State) :
  for_each (l1 ++ l2) body env st =
  match for_each l1 body env st with
  | (Ok _, st1) => for_each l2 body env st1
  | (Err e, st1) => (Err e, st1)
  end.
Proof.
  revert st. induction l1 as [|x l1 IH]; intros st; simpl; [done|].
  unfold mbind, M_bind. destruct (body x env st) as [[[]|e] st1]; [|done].
  apply IH.
Qed.

(** X6: the loop over the key set stops at the first record without a
    modulus: it raises [KeyError('n')], the records after it are not
    stored, and the keys stored before it stay in the cache. *)
Theorem cache_stops_at_key_without_n (before after : list jwk) (bad : jwk)
    (env : Env) (st st1 : State) :
  for_each before cache_key env st = (Ok tt, st1) ->
  bad !! "n" = None ->
  for_each (before ++ bad :: after) cache_key env st = (Err (KeyError (Some "n")), st1)
  /\ forall key, In key before ->
       exists kid, key !! "kid" = Some kid /\ is_Some (_jwt_keys st1 !! kid).
Proof.
  intros Hbefore Hbad. split.
  - rewrite for_each_app, Hbefore. simpl.
    unfold mbind, M_bind, cache_key, mbind, M_bind, ask, lift, subscript.
    by rewrite Hbad.
  - by apply (for_each_cache_key_Ok _ _ _ _ Hbefore).
Qed.

Lemma cache_stops_at_key_without_n_witness :
  for_each keys_with_malformed cache_key provider_admin no_state =
    (Err (KeyError (Some "n")),
     (for_each [make_jwk "k1" "AQAD" "AQAB"] cache_key provider_admin no_state).2)
  /\ _jwt_keys (for_each keys_with_malformed cache_key provider_admin no_state).2 !! "k2"
     = None.
Proof.
  split; [|reflexivity].
  apply (cache_stops_at_key_without_n [make_jwk "k1" "AQAD" "AQAB"]
           [make_jwk "k2" "AQAF" "AQAB"] jwk_without_n provider_admin no_state
           (for_each [make_jwk "k1" "AQAD" "AQAB"] cache_key provider_admin no_state).2);
    reflexivity.
Defined.

(** *** What the authorization gate lets through *)









(** X8: a gate built without [require_one_of_roles] (the constructor's
    default, [None]) lets no request through: once the base class has given
    a token, [__call__] raises [TypeError] at the first membership test,
    before any lookup or decoding. *)
Theorem call_without_required_roles (self : AzureADAuthorization)
    (request : Request) (env : Env) (st : State) (token : option string) :
  oauth2_scheme env (auto_error self) request = Ok token ->
  require_one_of_roles self = None ->
  call self request env st = (Err TypeError, st).
Proof.
  intros Ht Hr. rewrite (call_eq _ _ _ _ _ Ht).
  unfold decode_with_either, try_workspace_app_registration,
    try_core_app_registration, mbind, M_bind, lift, mret, M_ret.
  rewrite Hr. simpl. by case_bool_decide.
Qed.

Lemma call_without_required_roles_witness :
  call default_gate (bearer_request {[ "workspace_id" := "ws1" ]}) provider_admin no_state =
  (Err TypeError, no_state).
Proof.
  apply (call_without_required_roles default_gate
           (bearer_request {[ "workspace_id" := "ws1" ]}) provider_admin no_state
           (Some "eyJ0eXAi"));
    reflexivity.
Defined.

(** X9: when neither attempt applies (no workspace in the path or no
    workspace role accepted, and no core role accepted), the gate raises
    the 401 fault without looking up a workspace, fetching a key or
    decoding the token: the state is untouched. *)
Theorem call_no_applicable_attempt (self : AzureADAuthorization)
    (request : Request) (env : Env) (st : State) (token : option string)
    (required : list string) :
  oauth2_scheme env (auto_error self) request = Ok token ->
  require_one_of_roles self = Some required ->
  path_params request !! "workspace_id" = None
    \/ any_in WORKSPACE_ROLES_DICT_keys required = false ->
  any_in TRE_CORE_ROLES required = false ->
  call self request env st =
  (Err (HTTPException HTTP_401_UNAUTHORIZED AUTH_UNABLE_TO_VALIDATE_TOKEN false), st).
Proof.
  intros Ht Hr Hws Hcore. rewrite (call_eq _ _ _ _ _ Ht).
  unfold decode_with_either, try_workspace_app_registration,
    try_core_app_registration.
  rewrite Hr, !py_any_in_Some, Hcore.
  unfold mbind, M_bind, lift, mret, M_ret.
  destruct Hws as [Hnone | Hws].
  - by rewrite (present_false _ _ Hnone).
  - rewrite Hws. by case_bool_decide.
Qed.

Lemma call_no_applicable_attempt_witness :
  call workspace_gate (bearer_request ∅) provider_admin no_state =
  (Err (HTTPException HTTP_401_UNAUTHORIZED AUTH_UNABLE_TO_VALIDATE_TOKEN false), no_state).
Proof.
  apply (call_no_applicable_attempt workspace_gate (bearer_request ∅) provider_admin
           no_state (Some "eyJ0eXAi") ["WorkspaceOwner"]); try reflexivity.
  left. reflexivity.
Defined.

(** X10: a token that is verified but whose claims have no ['oid'] is
    denied with the 401 fault that carries the [WWW-Authenticate] header,
    whatever roles the claims list. *)
Theorem call_token_without_oid (self : AzureADAuthorization) (request : Request)
    (env : Env) (st st' : State) (token : option string) (decoded_token : Claims) :
  oauth2_scheme env (auto_error self) request = Ok token ->
  decode_with_either self request token env st = (Ok (Some decoded_token), st') ->
  claim_oid decoded_token = None ->
  call self request env st =
  (Err (HTTPException HTTP_401_UNAUTHORIZED
          ACCESS_UNABLE_TO_GET_ROLE_ASSIGNMENTS_FOR_USER true), st').
Proof.
  intros Ht Hd Hoid. rewrite (call_eq _ _ _ _ _ Ht), Hd.
  unfold authorize, mbind, M_bind, try_except, lift, raise, _get_user_from_token.
  by rewrite Hoid.
Qed.

Lemma call_token_without_oid_witness :
  call core_gate (bearer_request ∅) provider_without_oid no_state =
  (Err (HTTPException HTTP_401_UNAUTHORIZED
          ACCESS_UNABLE_TO_GET_ROLE_ASSIGNMENTS_FOR_USER true),
   (_get_token_key (Some "k1") provider_without_oid no_state).2).
Proof.
  apply (call_token_without_oid core_gate (bearer_request ∅) provider_without_oid
           no_state (_get_token_key (Some "k1") provider_without_oid no_state).2
           (Some "eyJ0eXAi") claims_without_oid);
    reflexivity.
Defined.

(** *** The directory service *)

(** X11: when MSAL's cache answers a non-empty result, that result decides:
    its ['access_token'] is returned, and without one [Exception] is raised
    with the result's ['error']; the client-credential flow is not run in
    either case. *)
Theorem _get_msgraph_token_silent_result (env : Env) (st : State)
    (r : gmap string string) :
  acquire_token_silent env = Ok (Some r) ->
  dict_truthy r = true ->
  _get_msgraph_token env st =
  (match r !! "access_token" with
   | Some access_token => Ok access_token
   | None => Err (PyException (r !! "error"))
   end, logged st [MsalSilent]).
Proof.
  intros Hs Ht.
  unfold _get_msgraph_token, mbind, M_bind, ask, log, lift, mret, M_ret, raise.
  rewrite Hs, Ht.
  destruct (r !! "access_token") as [t|] eqn:Ha.
  - rewrite bool_decide_eq_true_2 by eauto. simpl.
    by rewrite (subscript_Some _ _ _ Ha).
  - by rewrite bool_decide_eq_false_2 by (by intros [? ?]).
Qed.

Lemma _get_msgraph_token_silent_result_witness :
  _get_msgraph_token directory_env_silent_error no_state =
  (Err (PyException (Some "invalid_client")), logged no_state [MsalSilent]).
Proof.
  exact (_get_msgraph_token_silent_result directory_env_silent_error no_state
           {[ "error" := "invalid_client" ]} eq_refl eq_refl).
Defined.

Lemma WORKSPACE_ROLES_DICT_get_value (value key : string) :
  WORKSPACE_ROLES_DICT_get value = Some key -> In key WORKSPACE_ROLES_DICT_values.
Proof.
  unfold WORKSPACE_ROLES_DICT_get. simpl.
  repeat case_bool_decide; simpl; intros Hget; simplify_eq; auto.
Qed.

(** The loop over the app roles writes under the three role-id keys only. *)
Lemma collect_app_roles_Ok (appRoles : list (gmap string string))
    (authInfo authInfo' : gmap string string) :
  collect_app_roles appRoles authInfo = Ok authInfo' ->
  forall k, ~ In k WORKSPACE_ROLES_DICT_values -> authInfo' !! k = authInfo !! k.
Proof.
  revert authInfo. induction appRoles as [|appRole rest IH]; intros authInfo H k Hk.
  - simpl in H. by simplify_eq.
  - cbn [collect_app_roles] in H.
    destruct (subscript appRole "value") as [value|e]; [|done].
    destruct (py_in value WORKSPACE_ROLES_DICT_keys); [|by apply IH].
    destruct (subscript appRole "id") as [role_id|e]; [|done].
    destruct (WORKSPACE_ROLES_DICT_get value) as [key|] eqn:Hget; [|done].
    rewrite (IH _ H k Hk). apply lookup_insert_ne.
    intros ->. by apply Hk, (WORKSPACE_ROLES_DICT_get_value value).
Qed.

Lemma collect_app_roles_keys (appRoles : list (gmap string string))
    (authInfo authInfo' : gmap string string) :
  collect_app_roles appRoles authInfo = Ok authInfo' ->
  forall k, is_Some (authInfo' !! k) ->
  is_Some (authInfo !! k) \/ In k WORKSPACE_ROLES_DICT_values.
Proof.
  intros H k Hk.
  destruct (decide (In k WORKSPACE_ROLES_DICT_values)) as [Hin|Hin]; [by right|].
  left. by rewrite <- (collect_app_roles_Ok _ _ _ H k Hin).
Qed.

Lemma _get_app_auth_info_Ok (client_id : string) (env : Env) (st st' : State)
    (authInfo : gmap string string) :
  _get_app_auth_info client_id env st = (Ok authInfo, st') ->
  exists app rest sp_id names scope_id appRoles,
    _get_app_sp_graph_data client_id env st =
      (Ok {| gd_value := Some (app :: rest) |}, st')
    /\ ai_id app = Some sp_id
    /\ ai_servicePrincipalNames app = Some names
    /\ first names = Ok scope_id
    /\ ai_appRoles app = Some appRoles
    /\ collect_app_roles appRoles (<["scope_id" := scope_id]> {[ "sp_id" := sp_id ]}) =
       Ok authInfo.
Proof.
  unfold _get_app_auth_info. intros H.
  apply bind_Ok in H as ([[[|app rest]|]] & st1 & Hg & H); simpl in H; try done.
  unfold mbind, M_bind, lift, field in H.
  destruct (ai_id app) as [sp_id|] eqn:Hid; [|done].
  destruct (ai_servicePrincipalNames app) as [names|] eqn:Hn; [|done].
  destruct (first names) as [scope_id|e] eqn:Hf; [|done].
  destruct (ai_appRoles app) as [appRoles|] eqn:Hr; [|done].
  simplify_eq. by exists app, rest, sp_id, names, scope_id, appRoles.
Qed.

(** X12: auth information read from the directory always names the service
    principal and the scope, taken from the first application the
    directory lists, and holds nothing but these two and role ids under the
    three role-id keys: other app roles of the application are left out. *)
Theorem _get_app_auth_info_shape (client_id : string) (env : Env)
    (st st' : State) (authInfo : gmap string string) :
  _get_app_auth_info client_id env st = (Ok authInfo, st') ->
  (exists app rest names,
     _get_app_sp_graph_data client_id env st =
       (Ok {| gd_value := Some (app :: rest) |}, st')
     /\ authInfo !! "sp_id" = ai_id app
     /\ ai_servicePrincipalNames app = Some names
     /\ authInfo !! "scope_id" = head names)
  /\ forall k, is_Some (authInfo !! k) ->
       k = "sp_id" \/ k = "scope_id" \/ In k WORKSPACE_ROLES_DICT_values.
Proof.
  intros H.
  apply _get_app_auth_info_Ok in H
    as (app & rest & sp_id & names & scope_id & appRoles & Hg & Hid & Hn & Hf & Hr & Hc).
  split.
  - exists app, rest, names. repeat split; try done.
    + rewrite (collect_app_roles_Ok _ _ _ Hc "sp_id"), Hid.
      * by rewrite lookup_insert_ne, lookup_singleton_eq.
      * simpl. intros [?|[?|[?|[]]]]; discriminate.
    + rewrite (collect_app_roles_Ok _ _ _ Hc "scope_id").
      * rewrite lookup_insert_eq. destruct names; simpl in *; by simplify_eq.
      * simpl. intros [?|[?|[?|[]]]]; discriminate.
  - intros k Hk.
    destruct (collect_app_roles_keys _ _ _ Hc k Hk) as [Hbase|Hrole]; [|by auto].
    destruct (decide (k = "scope_id")) as [->|Hne]; [by auto|].
    rewrite lookup_insert_ne in Hbase by done.
    destruct (decide (k = "sp_id")) as [->|Hne']; [by auto|].
    rewrite lookup_singleton_ne in Hbase by done. by destruct Hbase.
Qed.

Lemma _get_app_auth_info_shape_witness :
  (exists app rest names,
     _get_app_sp_graph_data "app-1" directory_env no_state =
       (Ok {| gd_value := Some (app :: rest) |},
        (_get_app_auth_info "app-1" directory_env no_state).2)
     /\ app_1_auth_info !! "sp_id" = ai_id app
     /\ ai_servicePrincipalNames app = Some names
     /\ app_1_auth_info !! "scope_id" = head names)
  /\ forall k, is_Some (app_1_auth_info !! k) ->
       k = "sp_id" \/ k = "scope_id" \/ In k WORKSPACE_ROLES_DICT_values.
Proof.
  apply (_get_app_auth_info_shape "app-1" directory_env no_state
           (_get_app_auth_info "app-1" directory_env no_state).2 app_1_auth_info).
  reflexivity.
Defined.

Lemma check_required_roles_Ok (roles : list (string * string))
    (auth_info : gmap string string) :
  check_required_roles roles auth_info = Ok tt ->
  forall role, In role roles -> is_Some (auth_info !! role.2).
Proof.
  induction roles as [|r roles IH]; intros H role Hin; [done|].
  simpl in H. case_bool_decide as Hr; simpl in H; [|done].
  destruct Hin as [->|Hin]; [done | by apply IH].
Qed.

(** X13: what [extract_workspace_auth_information] returns is either the
    empty mapping, for ['client_id'] ["auto_create"] and with no call made,
    or a mapping that holds the service-principal id, the scope and all
    three role ids; it returns nothing for data without ['client_id']. *)
Theorem extract_workspace_auth_information_returns (data : gmap string string)
    (env : Env) (st st' : State) (auth_info : gmap string string) :
  extract_workspace_auth_information data env st = (Ok auth_info, st') ->
  exists client_id,
    data !! "client_id" = Some client_id
    /\ ((client_id = "auto_create" /\ auth_info = ∅ /\ st' = st)
        \/ (client_id <> "auto_create"
            /\ is_Some (auth_info !! "sp_id")
            /\ is_Some (auth_info !! "scope_id")
            /\ forall k, In k WORKSPACE_ROLES_DICT_values -> is_Some (auth_info !! k))).
Proof.
  unfold extract_workspace_auth_information.
  case_bool_decide as Hc; cbn [negb]; [|done].
  destruct Hc as [client_id Hc]. intros H. exists client_id. split; [done|].
  apply bind_Ok in H as (c & st1 & Hl & H). apply lift_Ok in Hl as [Hl ->].
  rewrite (subscript_Some _ _ _ Hc) in Hl. simplify_eq.
  case_bool_decide as Hauto; cbn [negb] in H.
  - left. unfold mret, M_ret in H. by simplify_eq.
  - right. split; [done|].
    apply bind_Ok in H as (auth & st1 & Hinfo & H).
    apply bind_Ok in H as ([] & st2 & Hcheck & H).
    apply lift_Ok in Hcheck as [Hcheck ->].
    unfold mret, M_ret in H. simplify_eq.
    apply _get_app_auth_info_Ok in Hinfo
      as (app & rest & sp_id & names & scope_id & appRoles & _ & _ & _ & _ & _ & Hcol).
    repeat split.
    + rewrite (collect_app_roles_Ok _ _ _ Hcol "sp_id").
      * rewrite lookup_insert_ne by done. rewrite lookup_singleton_eq. by eexists.
      * simpl. intros [?|[?|[?|[]]]]; discriminate.
    + rewrite (collect_app_roles_Ok _ _ _ Hcol "scope_id").
      * rewrite lookup_insert_eq. by eexists.
      * simpl. intros [?|[?|[?|[]]]]; discriminate.
    + intros k Hk. apply in_map_iff in Hk as (role & <- & Hrole).
      by apply (check_required_roles_Ok _ _ Hcheck).
Qed.

Lemma extract_workspace_auth_information_returns_witness :
  exists client_id,
    app_1_data !! "client_id" = Some client_id
    /\ ((client_id = "auto_create" /\ app_1_auth_info = ∅
         /\ (extract_workspace_auth_information app_1_data directory_env no_state).2
            = no_state)
        \/ (client_id <> "auto_create"
            /\ is_Some (app_1_auth_info !! "sp_id")
            /\ is_Some (app_1_auth_info !! "scope_id")
            /\ forall k, In k WORKSPACE_ROLES_DICT_values ->
                         is_Some (app_1_auth_info !! k))).
Proof.
  apply (extract_workspace_auth_information_returns app_1_data directory_env no_state
           (extract_workspace_auth_information app_1_data directory_env no_state).2
           app_1_auth_info).
  reflexivity.
Defined.

(** *** The batch of user and group lookups *)

Lemma batch_request_id (batch_url principal_id : string) :
  batch_request batch_url principal_id !! "id" = Some principal_id.
Proof.
  unfold batch_request.
  rewrite !lookup_insert_ne by done. apply lookup_singleton_eq.
Qed.

Lemma request_ids_snoc (requests : list (gmap string string))
    (batch_url principal_id : string) :
  request_ids (requests ++ [batch_request batch_url principal_id]) =
  request_ids requests ++ [principal_id].
Proof.
  unfold request_ids. rewrite omap_app. simpl. by rewrite batch_request_id.
Qed.

Lemma String_eqb_true (a b : string) : String.eqb a b = true <-> a = b.
Proof. apply String.eqb_eq. Qed.

(** The loop keeps [met_principal_ids] equal to the ids of the requests,
    never repeats an id, and adds a request for a principal exactly when an
    assignment asks for it. *)
Lemma batch_requests_inv (value : list (gmap string string)) :
  forall (requests : list (gmap string string)) (met : gset string)
         (result_requests : list (gmap string string)),
  batch_requests value requests met = Ok result_requests ->
  (forall p, p ∈ met <-> p ∈ request_ids requests) ->
  NoDup (request_ids requests) ->
  NoDup (request_ids result_requests)
  /\ (forall p, p ∈ request_ids result_requests <->
        p ∈ request_ids requests \/ exists ra, ra ∈ value /\ asks_for ra p)
  /\ exists added,
       result_requests = requests ++ added
       /\ length added <= length value
       /\ Forall (fun request => exists p,
                    request = batch_request (_get_users_endpoint p) p
                    \/ request = batch_request (_get_group_members_endpoint p) p)
            added.
Proof.
  induction value as [|ra rest IH]; intros requests met res H Hmet Hnd.
  - simpl in H. simplify_eq. split; [done|]. split.
    + intros p. split; [by left|]. intros [?|(ra & Hra & _)]; [done|].
      by apply elem_of_nil in Hra.
    + exists []. by rewrite app_nil_r.
  - cbn [batch_requests] in H.
    destruct (subscript ra "principalId") as [pid|e] eqn:Hpid; [|done].
    apply subscript_Ok in Hpid.
    assert (Hskip : forall res',
      batch_requests rest requests met = Ok res' ->
      (pid ∈ met \/ (forall t, ra !! "principalType" = Some t -> t <> "User" /\ t <> "Group")
                    /\ is_Some (ra !! "principalType")) ->
      NoDup (request_ids res')
      /\ (forall p, p ∈ request_ids res' <->
            p ∈ request_ids requests \/ exists ra0, ra0 ∈ ra :: rest /\ asks_for ra0 p)
      /\ exists added, res' = requests ++ added /\ length added <= length (ra :: rest)
           /\ Forall (fun request => exists p,
                        request = batch_request (_get_users_endpoint p) p
                        \/ request = batch_request (_get_group_members_endpoint p) p)
                added).
    { intros res' Hres Hwhy.
      destruct (IH _ _ _ Hres Hmet Hnd) as (Hnd' & Hiff & added & -> & Hlen & Hall).
      split; [done|]. split.
      - intros p. rewrite Hiff. split.
        + intros [?|(ra0 & Hin & Hask)]; [by left|].
          right. exists ra0. split; [by apply elem_of_cons; right | done].
        + intros [?|(ra0 & Hin & Hask)]; [by left|].
          apply elem_of_cons in Hin as [->|Hin]; [|right; by exists ra0].
          destruct Hask as [Hp Ht]. rewrite Hpid in Hp. simplify_eq.
          destruct Hwhy as [Hm | [Hother _]]; [left; by apply Hmet|].
          destruct Ht as [Ht|Ht]; destruct (Hother _ Ht); done.
      - exists added. repeat split; [simpl; lia | done]. }
    assert (Hadd : forall res' url,
      batch_requests rest (requests ++ [batch_request url pid]) ({[pid]} ∪ met) = Ok res' ->
      pid ∉ met ->
      (url = _get_users_endpoint pid \/ url = _get_group_members_endpoint pid) ->
      asks_for ra pid ->
      NoDup (request_ids res')
      /\ (forall p, p ∈ request_ids res' <->
            p ∈ request_ids requests \/ exists ra0, ra0 ∈ ra :: rest /\ asks_for ra0 p)
      /\ exists added, res' = requests ++ added /\ length added <= length (ra :: rest)
           /\ Forall (fun request => exists p,
                        request = batch_request (_get_users_endpoint p) p
                        \/ request = batch_request (_get_group_members_endpoint p) p)
                added).
    { intros res' url Hres Hfresh Hurl Hask.
      assert (Hmet' : forall p, p ∈ {[pid]} ∪ met <->
                                p ∈ request_ids (requests ++ [batch_request url pid])).
      { intros p. rewrite request_ids_snoc, elem_of_app, elem_of_union,
          elem_of_singleton, list_elem_of_singleton, Hmet. tauto. }
      assert (Hnd1 : NoDup (request_ids (requests ++ [batch_request url pid]))).
      { rewrite request_ids_snoc. apply NoDup_app. repeat split; [done | | apply NoDup_singleton].
        intros p Hp Hp'. apply list_elem_of_singleton in Hp'. subst.
        by apply Hfresh, Hmet. }
      destruct (IH _ _ _ Hres Hmet' Hnd1) as (Hnd' & Hiff & added & -> & Hlen & Hall).
      split; [done|]. split.
      - intros p. rewrite Hiff, request_ids_snoc, elem_of_app, list_elem_of_singleton. split.
        + intros [[?| ->]|(ra0 & Hin & Hask0)]; [by left | |].
          * right. exists ra. split; [by apply elem_of_cons; left | done].
          * right. exists ra0. split; [by apply elem_of_cons; right | done].
        + intros [?|(ra0 & Hin & Hask0)]; [by left; left|].
          apply elem_of_cons in Hin as [->|Hin]; [|right; by exists ra0].
          destruct Hask0 as [Hp _]. rewrite Hpid in Hp. simplify_eq. by left; right.
      - exists (batch_request url pid :: added). rewrite <- app_assoc. repeat split.
        + simpl. lia.
        + apply Forall_cons. split; [exists pid; by destruct Hurl as [->| ->]; auto | done]. }
    case_bool_decide as Hin; cbn [negb] in H.
    + apply Hskip; [done | by left].
    + destruct (subscript ra "principalType") as [ptype|e] eqn:Hpt; [|done].
      apply subscript_Ok in Hpt.
      destruct (String.eqb ptype "User") eqn:Hu.
      { apply String_eqb_true in Hu. subst.
        apply (Hadd _ _ H Hin); [by left | by split; [|left]]. }
      destruct (String.eqb ptype "Group") eqn:Hg.
      { apply String_eqb_true in Hg. subst.
        apply (Hadd _ _ H Hin); [by right | by split; [|right]]. }
      apply Hskip; [done|]. right. split; [|by eexists].
      intros t Ht. rewrite Hpt in Ht. simplify_eq.
      split; intros ->; by rewrite String.eqb_refl in *.
Qed.

Lemma _get_batch_users_by_role_assignments_body_Ok (graph : roles_graph_data)
    (body : gmap string (list (gmap string string))) :
  _get_batch_users_by_role_assignments_body graph = Ok body ->
  exists value requests,
    rg_value graph = Some value
    /\ batch_requests value [] ∅ = Ok requests
    /\ body = {[ "requests" := requests ]}.
Proof.
  unfold _get_batch_users_by_role_assignments_body, field, rbind.
  destruct (rg_value graph) as [value|]; [|done].
  destruct (batch_requests value [] ∅) as [requests|e] eqn:Hb; [|done].
  intros H. simplify_eq. by exists value, requests.
Qed.

(** X14: the batch asks for every principal once: the ids of its requests
    are pairwise different, and a principal id is among them exactly when
    some role assignment names it as a user or as a group; service
    principals get no request. *)
Theorem batch_asks_for_each_principal_once (graph : roles_graph_data)
    (body : gmap string (list (gmap string string))) :
  _get_batch_users_by_role_assignments_body graph = Ok body ->
  exists value requests,
    rg_value graph = Some value
    /\ body = {[ "requests" := requests ]}
    /\ NoDup (request_ids requests)
    /\ forall p, p ∈ request_ids requests <-> exists ra, ra ∈ value /\ asks_for ra p.
Proof.
  intros H.
  apply _get_batch_users_by_role_assignments_body_Ok in H
    as (value & requests & Hv & Hb & ->).
  exists value, requests. repeat split; try done.
  - destruct (batch_requests_inv value [] ∅ requests Hb) as (Hnd & _ & _);
      [by intros p; rewrite elem_of_empty, elem_of_nil | by apply NoDup_nil | done].
  - destruct (batch_requests_inv value [] ∅ requests Hb) as (_ & Hiff & _);
      [by intros p0; rewrite elem_of_empty, elem_of_nil | by apply NoDup_nil |].
    intros Hp. apply Hiff in Hp as [Hp|Hp]; [by apply elem_of_nil in Hp | done].
  - destruct (batch_requests_inv value [] ∅ requests Hb) as (_ & Hiff & _);
      [by intros p0; rewrite elem_of_empty, elem_of_nil | by apply NoDup_nil |].
    intros Hp. apply Hiff. by right.
Qed.

Lemma batch_asks_for_each_principal_once_witness :
  exists value requests,
    rg_value sample_assignments = Some value
    /\ ({[ "requests" :=
            [ batch_request (_get_users_endpoint "u1") "u1";
              batch_request (_get_group_members_endpoint "g1") "g1";
              batch_request (_get_users_endpoint "u2") "u2" ] ]}
        : gmap string (list (gmap string string))) = {[ "requests" := requests ]}
    /\ NoDup (request_ids requests)
    /\ forall p, p ∈ request_ids requests <-> exists ra, ra ∈ value /\ asks_for ra p.
Proof.
  apply (batch_asks_for_each_principal_once sample_assignments).
  reflexivity.
Defined.

(** X15: every request of the batch is a GET for the user or for the
    transitive members of the group it is named after, and the batch has at
    most one request per role assignment. *)
Theorem batch_requests_shape (graph : roles_graph_data)
    (body : gmap string (list (gmap string string))) :
  _get_batch_users_by_role_assignments_body graph = Ok body ->
  exists value requests,
    rg_value graph = Some value
    /\ body !! "requests" = Some requests
    /\ length requests <= length value
    /\ forall request, request ∈ requests ->
         request !! "method" = Some "GET"
         /\ exists p, request !! "id" = Some p
              /\ (request !! "url" = Some ("/users/" +:+ p +:+ "?$select=mail,id")
                  \/ request !! "url" =
                     Some ("/groups/" +:+ p +:+ "/transitiveMembers?$select=mail,id")).
Proof.
  intros H.
  apply _get_batch_users_by_role_assignments_body_Ok in H
    as (value & requests & Hv & Hb & ->).
  exists value, requests.
  destruct (batch_requests_inv value [] ∅ requests Hb)
    as (_ & _ & added & Heq & Hlen & Hall);
    [by intros p; rewrite elem_of_empty, elem_of_nil | by apply NoDup_nil |].
  simpl in Heq. subst added.
  split; [done|]. split; [apply lookup_singleton_eq|]. split; [done|].
  intros request Hreq. rewrite Forall_forall in Hall.
  destruct (Hall request Hreq) as (p & Hshape).
  assert (Hmethod : forall url, batch_request url p !! "method" = Some "GET").
  { intros url. apply lookup_insert_eq. }
  assert (Hurl : forall url, batch_request url p !! "url" = Some url).
  { intros url. unfold batch_request.
    rewrite lookup_insert_ne by done. apply lookup_insert_eq. }
  destruct Hshape as [-> | ->]; (split; [apply Hmethod|]); exists p;
    (split; [apply batch_request_id|]); [left | right]; apply Hurl.
Qed.

Lemma batch_requests_shape_witness :
  exists value requests,
    rg_value sample_assignments = Some value
    /\ ({[ "requests" :=
            [ batch_request (_get_users_endpoint "u1") "u1";
              batch_request (_get_group_members_endpoint "g1") "g1";
              batch_request (_get_users_endpoint "u2") "u2" ] ]}
        : gmap string (list (gmap string string))) !! "requests" = Some requests
    /\ length requests <= length value
    /\ forall request, request ∈ requests ->
         request !! "method" = Some "GET"
         /\ exists p, request !! "id" = Some p
              /\ (request !! "url" = Some ("/users/" +:+ p +:+ "?$select=mail,id")
                  \/ request !! "url" =
                     Some ("/groups/" +:+ p +:+ "/transitiveMembers?$select=mail,id")).
Proof.
  apply (batch_requests_shape sample_assignments).
  reflexivity.
Defined.

(** *** Inversion in the directory monad *)

Lemma dbind_Returned {A B} (m : D A) (k : A -> D B) (dir : Directory) (env : Env)
    (ds ds' : DState) (b : B) :
  (m ≫= k) dir env ds = (Returned b, ds') ->
  exists a ds1, m dir env ds = (Returned a, ds1) /\ k a dir env ds1 = (Returned b, ds').
Proof.
  unfold mbind, D_bind. destruct (m dir env ds) as [[a|r] ds1]; [|done].
  intros H. by exists a, ds1.
Qed.

Lemma liftR_eq {A} (r : result A) (dir : Directory) (env : Env) (ds : DState) :
  liftR r dir env ds =
  (match r with Ok a => Returned a | Err e => Raised (Exn e) end, ds).
Proof. unfold liftR, liftM, lift. by destruct r, ds. Qed.

Lemma liftR_Returned {A} (r : result A) (dir : Directory) (env : Env)
    (ds ds' : DState) (a : A) :
  liftR r dir env ds = (Returned a, ds') -> r = Ok a /\ ds' = ds.
Proof. rewrite liftR_eq. destruct r; intros H; by simplify_eq. Qed.

(** *** Who holds which role in a workspace *)

Lemma collect_user_emails_from (all : list user_data) (responses : list user_data) :
  forall user_emails result_emails,
  (forall ud, ud ∈ responses -> ud ∈ all) ->
  collect_user_emails responses user_emails = Ok result_emails ->
  emails_from all user_emails -> emails_from all result_emails.
Proof.
  induction responses as [|ud rest IH]; intros user_emails res Hall H Hfrom.
  - simpl in H. by simplify_eq.
  - cbn [collect_user_emails] in H.
    assert (Hrest : forall u, u ∈ rest -> u ∈ all).
    { intros u Hu. apply Hall, elem_of_cons. by right. }
    destruct (ud_body ud) as [body|] eqn:Hbody; [|done]. cbn [field] in H.
    destruct (ub_mail body) as [[mail|]|] eqn:Hmail; cbn [field] in H; [| |done].
    + destruct (ub_id body) as [uid|] eqn:Hid; cbn [field] in H; [|done].
      apply (IH _ _ Hrest H). intros p email Hp.
      destruct (decide (uid = p)) as [->|Hne].
      * rewrite lookup_insert_eq in Hp. simplify_eq.
        exists ud, body. repeat split; try done. apply Hall, elem_of_cons. by left.
      * rewrite lookup_insert_ne in Hp by done. by apply Hfrom.
    + by apply (IH _ _ Hrest H).
Qed.

Lemma append_to_lookup (key email : string) (details : gmap string (list string))
    (k : string) (emails : list string) :
  append_to key email details !! k = Some emails ->
  (k = key /\ emails = default [] (details !! key) ++ [email])
  \/ (k <> key /\ details !! k = Some emails).
Proof.
  unfold append_to. destruct (decide (key = k)) as [->|Hne].
  - rewrite lookup_insert_eq. intros H. simplify_eq. by left.
  - rewrite lookup_insert_ne by done. intros H. right. by split; [intros ->|].
Qed.

Lemma append_to_justified (all : list (gmap string string)) (r o : string)
    (user_emails : gmap string string) (key email : string)
    (details : gmap string (list string)) :
  key = "researcher_emails" \/ key = "owner_emails" ->
  listed_for all r o user_emails key email ->
  details_justified all r o user_emails details ->
  details_justified all r o user_emails (append_to key email details).
Proof.
  intros Hkey Hnew Hd k emails Hk.
  apply append_to_lookup in Hk as [[-> ->] | [Hne Hk]]; [|by apply Hd].
  split; [done|]. intros e He.
  apply elem_of_app in He as [He|He].
  - destruct (details !! key) as [old|] eqn:Hold; simpl in He.
    + by apply (Hd key old).
    + by apply elem_of_nil in He.
  - apply list_elem_of_singleton in He. by subst.
Qed.

Lemma classify_role_assignments_justified (all : list (gmap string string))
    (r o : string) (user_emails : gmap string string)
    (value : list (gmap string string)) :
  forall details result_details,
  (forall ra, ra ∈ value -> ra ∈ all) ->
  classify_role_assignments value r o user_emails details = Ok result_details ->
  details_justified all r o user_emails details ->
  details_justified all r o user_emails result_details.
Proof.
  induction value as [|ra rest IH]; intros details res Hall H Hd.
  - simpl in H. by simplify_eq.
  - cbn [classify_role_assignments] in H.
    assert (Hrest : forall x, x ∈ rest -> x ∈ all).
    { intros x Hx. apply Hall, elem_of_cons. by right. }
    assert (Hra : ra ∈ all) by (apply Hall, elem_of_cons; by left).
    destruct (subscript ra "principalType") as [ptype|e] eqn:Hpt; [|done].
    apply subscript_Ok in Hpt.
    destruct (String.eqb ptype "User") eqn:Hu; [|by apply (IH _ _ Hrest H)].
    apply String_eqb_true in Hu. subst.
    destruct (subscript ra "principalId") as [p|e] eqn:Hp; [|done].
    apply subscript_Ok in Hp.
    destruct (user_emails !! p) as [email|] eqn:He; [|by apply (IH _ _ Hrest H)].
    destruct (subscript ra "appRoleId") as [role|e] eqn:Hrole; [|done].
    apply subscript_Ok in Hrole.
    destruct (String.eqb role r) eqn:Hr.
    { apply String_eqb_true in Hr. subst.
      apply (IH _ _ Hrest H). apply append_to_justified; [by left | | done].
      exists ra, p. repeat split; try done. by left. }
    destruct (String.eqb role o) eqn:Ho; [|by apply (IH _ _ Hrest H)].
    apply String_eqb_true in Ho. subst.
    apply (IH _ _ Hrest H). apply append_to_justified; [by right | | done].
    exists ra, p. repeat split; try done. right. repeat split; try done.
    intros ->. by rewrite String.eqb_refl in Hr.
Qed.

Lemma get_workspace_role_assignment_details_Returned (workspace : Workspace)
    (dir : Directory) (env : Env) (ds ds' : DState)
    (details : gmap string (list string)) :
  get_workspace_role_assignment_details workspace dir env ds = (Returned details, ds') ->
  exists r o sp roles users value responses user_emails,
    properties workspace !! "app_role_id_workspace_researcher" = Some r
    /\ properties workspace !! "app_role_id_workspace_owner" = Some o
    /\ properties workspace !! "sp_id" = Some sp
    /\ _get_user_emails_with_role_asssignment sp dir env ds = (Returned (roles, users), ds')
    /\ rg_value roles = Some value
    /\ ug_responses users = Some responses
    /\ collect_user_emails responses ∅ = Ok user_emails
    /\ classify_role_assignments value r o user_emails ∅ = Ok details.
Proof.
  unfold get_workspace_role_assignment_details. intros H.
  apply dbind_Returned in H as (r & d1 & Hr & H). apply liftR_Returned in Hr as [Hr ->].
  apply dbind_Returned in H as (o & d1 & Ho & H). apply liftR_Returned in Ho as [Ho ->].
  apply dbind_Returned in H as (sp & d1 & Hsp & H). apply liftR_Returned in Hsp as [Hsp ->].
  apply dbind_Returned in H as ([roles users] & d1 & Hf & H). cbn [fst snd] in H.
  apply dbind_Returned in H as (responses & d2 & Hres & H).
  apply liftR_Returned in Hres as [Hres ->].
  apply dbind_Returned in H as (user_emails & d2 & Hue & H).
  apply liftR_Returned in Hue as [Hue ->].
  apply dbind_Returned in H as (value & d2 & Hv & H).
  apply liftR_Returned in Hv as [Hv ->].
  apply liftR_Returned in H as [H ->].
  exists r, o, sp, roles, users, value, responses, user_emails.
  repeat split; try done; try by apply subscript_Ok.
  - unfold field in Hv. by destruct (rg_value roles); simplify_eq.
  - unfold field in Hres. by destruct (ug_responses users); simplify_eq.
Qed.

(** X16: the details of a workspace list emails under ['researcher_emails']
    and ['owner_emails'] only, and every email listed is justified: some
    assignment of type [User] carries the researcher (resp. owner) role id
    of the workspace for a principal whose response in the batch has that
    mail.  Groups, service principals, airlock managers and users whose
    mail is [null] are not listed. *)
Theorem role_assignment_details_justified (workspace : Workspace)
    (dir : Directory) (env : Env) (ds ds' : DState)
    (details : gmap string (list string)) :
  get_workspace_role_assignment_details workspace dir env ds = (Returned details, ds') ->
  exists r o sp roles users value responses,
    properties workspace !! "app_role_id_workspace_researcher" = Some r
    /\ properties workspace !! "app_role_id_workspace_owner" = Some o
    /\ properties workspace !! "sp_id" = Some sp
    /\ _get_user_emails_with_role_asssignment sp dir env ds = (Returned (roles, users), ds')
    /\ rg_value roles = Some value
    /\ ug_responses users = Some responses
    /\ forall key emails, details !! key = Some emails ->
         (key = "researcher_emails" \/ key = "owner_emails")
         /\ forall email, email ∈ emails ->
              exists ra p ud body,
                ra ∈ value
                /\ ra !! "principalType" = Some "User"
                /\ ra !! "principalId" = Some p
                /\ ((key = "researcher_emails" /\ ra !! "appRoleId" = Some r)
                    \/ (key = "owner_emails" /\ ra !! "appRoleId" = Some o))
                /\ ud ∈ responses
                /\ ud_body ud = Some body
                /\ ub_id body = Some p
                /\ ub_mail body = Some (Some email).
Proof.
  intros H.
  apply get_workspace_role_assignment_details_Returned in H
    as (r & o & sp & roles & users & value & responses & user_emails
        & Hr & Ho & Hsp & Hf & Hv & Hres & Hue & Hc).
  exists r, o, sp, roles, users, value, responses.
  repeat split; try done.
  - assert (Hj : details_justified value r o user_emails details).
    { apply (classify_role_assignments_justified value r o user_emails value ∅);
        [done | done |]. intros k emails0 Hk. by rewrite lookup_empty in Hk. }
    by destruct (Hj key emails).
  - intros email He.
    assert (Hj : details_justified value r o user_emails details).
    { apply (classify_role_assignments_justified value r o user_emails value ∅);
        [done | done |]. intros k emails0 Hk. by rewrite lookup_empty in Hk. }
    destruct (Hj key emails H) as [_ Hl].
    destruct (Hl email He) as (ra & p & Hra & Ht & Hp & Hmail & Hrole).
    assert (Hfrom : emails_from responses user_emails).
    { apply (collect_user_emails_from responses responses ∅); [done | done |].
      intros q e Hq. by rewrite lookup_empty in Hq. }
    destruct (Hfrom p email Hmail) as (ud & body & Hud & Hbody & Hid & Hm).
    exists ra, p, ud, body. repeat split; try done.
    destruct Hrole as [[-> Hrr] | (-> & Hro & _)]; [by left | by right].
Qed.

Lemma role_assignment_details_justified_witness :
  exists r o sp roles users value responses,
    properties sample_workspace !! "app_role_id_workspace_researcher" = Some r
    /\ properties sample_workspace !! "app_role_id_workspace_owner" = Some o
    /\ properties sample_workspace !! "sp_id" = Some sp
    /\ _get_user_emails_with_role_asssignment sp users_directory directory_env no_dstate =
       (Returned (roles, users),
        (get_workspace_role_assignment_details sample_workspace users_directory
           directory_env no_dstate).2)
    /\ rg_value roles = Some value
    /\ ug_responses users = Some responses
    /\ forall key emails, sample_details !! key = Some emails ->
         (key = "researcher_emails" \/ key = "owner_emails")
         /\ forall email, email ∈ emails ->
              exists ra p ud body,
                ra ∈ value
                /\ ra !! "principalType" = Some "User"
                /\ ra !! "principalId" = Some p
                /\ ((key = "researcher_emails" /\ ra !! "appRoleId" = Some r)
                    \/ (key = "owner_emails" /\ ra !! "appRoleId" = Some o))
                /\ ud ∈ responses
                /\ ud_body ud = Some body
                /\ ub_id body = Some p
                /\ ub_mail body = Some (Some email).
Proof.
  apply (role_assignment_details_justified sample_workspace users_directory
           directory_env no_dstate
           (get_workspace_role_assignment_details sample_workspace users_directory
              directory_env no_dstate).2 sample_details).
  reflexivity.
Defined.




(** *** Role assignments of an identity *)

Lemma role_assignments_of_Ok (value : list (gmap string string)) :
  forall l, role_assignments_of value = Ok l ->
  Forall2 (fun ra a => ra !! "resourceId" = Some (resource_id a)
                       /\ ra !! "appRoleId" = Some (role_id a)) value l.
Proof.
  induction value as [|ra rest IH]; intros l H.
  - simpl in H. simplify_eq. constructor.
  - cbn [role_assignments_of] in H.
    destruct (subscript ra "resourceId") as [res|e] eqn:Hres; [|done].
    destruct (subscript ra "appRoleId") as [role|e] eqn:Hrole; [|done].
    destruct (role_assignments_of rest) as [l'|e]; [|done].
    simplify_eq. constructor; [|by apply IH].
    split; by apply subscript_Ok.
Qed.

Lemma get_identity_role_assignments_inv (user_id : string) (dir : Directory)
    (env : Env) (ds ds' : DState) (l : list RoleAssignment) :
  get_identity_role_assignments user_id dir env ds = (Returned l, ds') ->
  exists t ds1 graph value,
    _get_identity_type user_id dir env ds = (Returned t, ds1)
    /\ ((t = "#microsoft.graph.user"
         /\ _get_role_assignment_graph_data_for_user user_id dir env ds1 =
            (Returned graph, ds'))
        \/ (t = "#microsoft.graph.servicePrincipal"
            /\ _get_role_assignment_graph_data_for_service_principal user_id dir env ds1 =
               (Returned graph, ds')))
    /\ rg_value graph = Some value
    /\ role_assignments_of value = Ok l.
Proof.
  unfold get_identity_role_assignments. intros H.
  apply dbind_Returned in H as (t & ds1 & Ht & H).
  apply dbind_Returned in H as (graph & ds2 & Hg & H).
  destruct (rg_value graph) as [value|] eqn:Hv; [|done].
  apply liftR_Returned in H as [H ->].
  exists t, ds1, graph, value. repeat split; try done.
  destruct (String.eqb t "#microsoft.graph.user") eqn:Hu.
  { apply String_eqb_true in Hu. by left. }
  destruct (String.eqb t "#microsoft.graph.servicePrincipal") eqn:Hs; [|done].
  apply String_eqb_true in Hs. by right.
Qed.

(** X18: the role assignments returned for an identity are those the
    directory lists for it, one for one and in the same order, with
    ['resourceId'] as resource id and ['appRoleId'] as role id; they are
    read from the endpoint of users when the directory types the identity
    as a user, and from the endpoint of service principals when it types
    it as a service principal. *)
Theorem get_identity_role_assignments_lists (user_id : string) (dir : Directory)
    (env : Env) (ds ds' : DState) (l : list RoleAssignment) :
  get_identity_role_assignments user_id dir env ds = (Returned l, ds') ->
  exists t ds1 graph value,
    _get_identity_type user_id dir env ds = (Returned t, ds1)
    /\ ((t = "#microsoft.graph.user"
         /\ _get_role_assignment_graph_data_for_user user_id dir env ds1 =
            (Returned graph, ds'))
        \/ (t = "#microsoft.graph.servicePrincipal"
            /\ _get_role_assignment_graph_data_for_service_principal user_id dir env ds1 =
               (Returned graph, ds')))
    /\ rg_value graph = Some value
    /\ Forall2 (fun ra a => ra !! "resourceId" = Some (resource_id a)
                            /\ ra !! "appRoleId" = Some (role_id a)) value l.
Proof.
  intros H.
  apply get_identity_role_assignments_inv in H
    as (t & ds1 & graph & value & Ht & Hg & Hv & Hl).
  exists t, ds1, graph, value. repeat split; try done.
  by apply role_assignments_of_Ok.
Qed.

Lemma get_identity_role_assignments_lists_witness :
  exists t ds1 graph value,
    _get_identity_type "u1" users_directory directory_env no_dstate = (Returned t, ds1)
    /\ ((t = "#microsoft.graph.user"
         /\ _get_role_assignment_graph_data_for_user "u1" users_directory directory_env ds1 =
            (Returned graph,
             (get_identity_role_assignments "u1" users_directory directory_env no_dstate).2))
        \/ (t = "#microsoft.graph.servicePrincipal"
            /\ _get_role_assignment_graph_data_for_service_principal "u1" users_directory
                 directory_env ds1 =
               (Returned graph,
                (get_identity_role_assignments "u1" users_directory directory_env
                   no_dstate).2)))
    /\ rg_value graph = Some value
    /\ Forall2 (fun ra a => ra !! "resourceId" = Some (resource_id a)
                            /\ ra !! "appRoleId" = Some (role_id a)) value
         [ {| resource_id := "sp1"; role_id := "owner-role" |};
           {| resource_id := "sp7"; role_id := "r-role" |} ].
Proof.
  apply (get_identity_role_assignments_lists "u1" users_directory directory_env no_dstate).
  reflexivity.
Defined.

(** X19: for an identity that the directory types as neither a user nor a
    service principal, [get_identity_role_assignments] raises
    [UnboundLocalError]: the branch reads [graph_data] before it is bound,
    so the [AuthConfigValidationError] written below it is never raised,
    and no role assignment is fetched. *)
Theorem get_identity_role_assignments_unhandled_type (user_id : string)
    (dir : Directory) (env : Env) (ds ds1 : DState) (t : string) :
  _get_identity_type user_id dir env ds = (Returned t, ds1) ->
  t <> "#microsoft.graph.user" ->
  t <> "#microsoft.graph.servicePrincipal" ->
  get_identity_role_assignments user_id dir env ds =
  (Raised (UnboundLocalError "graph_data"), ds1).
Proof.
  intros Ht Hu Hs. unfold get_identity_role_assignments, mbind, D_bind.
  rewrite Ht.
  destruct (String.eqb t "#microsoft.graph.user") eqn:Eu.
  { by apply String_eqb_true in Eu. }
  destruct (String.eqb t "#microsoft.graph.servicePrincipal") eqn:Es.
  { by apply String_eqb_true in Es. }
  done.
Qed.

Lemma get_identity_role_assignments_unhandled_type_witness :
  get_identity_role_assignments "g1" groups_directory directory_env no_dstate =
  (Raised (UnboundLocalError "graph_data"),
   (_get_identity_type "g1" groups_directory directory_env no_dstate).2).
Proof.
  apply (get_identity_role_assignments_unhandled_type "g1" groups_directory
           directory_env no_dstate
           (_get_identity_type "g1" groups_directory directory_env no_dstate).2
           "#microsoft.graph.group");
    [reflexivity | discriminate | discriminate].
Defined.

Lemma Forall2_elem_of_r {A B} (P : A -> B -> Prop) (l : list A) (k : list B) (b : B) :
  Forall2 P l k -> b ∈ k -> exists a, a ∈ l /\ P a b.
Proof.
  induction 1 as [|a b' l k Hab Hlk IH]; intros Hb; [by apply elem_of_nil in Hb|].
  apply elem_of_cons in Hb as [->|Hb].
  - exists a. split; [by apply elem_of_cons; left | done].
  - destruct (IH Hb) as (a' & Ha' & HP). exists a'.
    split; [by apply elem_of_cons; right | done].
Qed.

Lemma Forall2_elem_of_l {A B} (P : A -> B -> Prop) (l : list A) (k : list B) (a : A) :
  Forall2 P l k -> a ∈ l -> exists b, b ∈ k /\ P a b.
Proof.
  induction 1 as [|a' b l k Hab Hlk IH]; intros Ha; [by apply elem_of_nil in Ha|].
  apply elem_of_cons in Ha as [->|Ha].
  - exists b. split; [by apply elem_of_cons; left | done].
  - destruct (IH Ha) as (b' & Hb' & HP). exists b'.
    split; [by apply elem_of_cons; right | done].
Qed.

(** X20: from the directory to the role.  For a workspace with a service
    principal and the three role ids, the role resolved from the
    assignments of an identity is Owner exactly when the directory lists,
    for that identity, an assignment of the workspace's owner role id on
    the workspace's service principal. *)
Theorem owner_iff_directory_lists_owner (user : User) (workspace : Workspace)
    (user_id : string) (dir : Directory) (env : Env) (ds ds' : DState)
    (l : list RoleAssignment) (sp owner researcher manager : string) :
  get_identity_role_assignments user_id dir env ds = (Returned l, ds') ->
  properties workspace !! "sp_id" = Some sp ->
  properties workspace !! "app_role_id_workspace_owner" = Some owner ->
  properties workspace !! "app_role_id_workspace_researcher" = Some researcher ->
  properties workspace !! "app_role_id_workspace_airlock_manager" = Some manager ->
  exists t ds1 graph value,
    _get_identity_type user_id dir env ds = (Returned t, ds1)
    /\ ((t = "#microsoft.graph.user"
         /\ _get_role_assignment_graph_data_for_user user_id dir env ds1 =
            (Returned graph, ds'))
        \/ (t = "#microsoft.graph.servicePrincipal"
            /\ _get_role_assignment_graph_data_for_service_principal user_id dir env ds1 =
               (Returned graph, ds')))
    /\ rg_value graph = Some value
    /\ (get_workspace_role user workspace l = Ok Owner <->
        exists ra, ra ∈ value /\ ra !! "resourceId" = Some sp
                   /\ ra !! "appRoleId" = Some owner).
Proof.
  intros H Hsp Ho Hr Hm.
  apply get_identity_role_assignments_inv in H
    as (t & ds1 & graph & value & Ht & Hg & Hv & Hl).
  apply role_assignments_of_Ok in Hl.
  exists t, ds1, graph, value. repeat split; try done.
  - rewrite (get_workspace_role_eq user _ l _ _ _ _ Hsp Ho Hr Hm).
    destruct (py_in {| resource_id := sp; role_id := owner |} l) eqn:Hin.
    + intros _. apply py_in_spec, list_elem_of_In in Hin.
      destruct (Forall2_elem_of_r _ _ _ _ Hl Hin) as (ra & Hra & Hres & Hrole).
      by exists ra.
    + intros Hrole. by repeat destruct (py_in _ l).
  - intros (ra & Hra & Hres & Hrole).
    destruct (Forall2_elem_of_l _ _ _ _ Hl Hra) as (a & Ha & Hres' & Hrole').
    rewrite Hres in Hres'. rewrite Hrole in Hrole'. simplify_eq.
    rewrite (get_workspace_role_eq user _ l _ _ _ _ Hsp Ho Hr Hm).
    assert (Hin : py_in {| resource_id := resource_id a; role_id := role_id a |} l = true).
    { apply py_in_spec, list_elem_of_In. by destruct a. }
    by rewrite Hin.
Qed.

Lemma owner_iff_directory_lists_owner_witness :
  exists t ds1 graph value,
    _get_identity_type "u1" users_directory directory_env no_dstate = (Returned t, ds1)
    /\ ((t = "#microsoft.graph.user"
         /\ _get_role_assignment_graph_data_for_user "u1" users_directory directory_env ds1 =
            (Returned graph,
             (get_identity_role_assignments "u1" users_directory directory_env no_dstate).2))
        \/ (t = "#microsoft.graph.servicePrincipal"
            /\ _get_role_assignment_graph_data_for_service_principal "u1" users_directory
                 directory_env ds1 =
               (Returned graph,
                (get_identity_role_assignments "u1" users_directory directory_env
                   no_dstate).2)))
    /\ rg_value graph = Some value
    /\ (get_workspace_role sample_user sample_workspace
          [ {| resource_id := "sp1"; role_id := "owner-role" |};
            {| resource_id := "sp7"; role_id := "r-role" |} ] = Ok Owner <->
        exists ra, ra ∈ value /\ ra !! "resourceId" = Some "sp1"
                   /\ ra !! "appRoleId" = Some "owner-role").
Proof.
  apply (owner_iff_directory_lists_owner sample_user sample_workspace "u1"
           users_directory directory_env no_dstate
           (get_identity_role_assignments "u1" users_directory directory_env no_dstate).2
           [ {| resource_id := "sp1"; role_id := "owner-role" |};
             {| resource_id := "sp7"; role_id := "r-role" |} ]
           "sp1" "owner-role" "r-role" "a-role");
    reflexivity.
Defined.

(** *** Resources *)

(** X21: the payload of a resource request always carries the operation,
    the step, the action, the resource's id, template name and version and
    its properties as parameters; it carries the workspace id for workspace
    services and user resources only, and the owner and the parent service
    for user resources only. *)
Theorem payload_contents {RequestAction : Type} (self : Resource)
    (attributes : gmap string string) (operation_id step_id : string)
    (action : RequestAction) (payload : gmap string (payload_value RequestAction)) :
  get_resource_request_message_payload self attributes operation_id step_id action =
    Returned payload ->
  payload !! "operationId" = Some (PStr operation_id)
  /\ payload !! "stepId" = Some (PStr step_id)
  /\ payload !! "action" = Some (PAction action)
  /\ payload !! "id" = Some (PStr (id self))
  /\ payload !! "name" = Some (PStr (templateName self))
  /\ payload !! "version" = Some (PStr (templateVersion self))
  /\ payload !! "parameters" = Some (PParameters (properties self))
  /\ payload !! "workspaceId" =
     match resourceType self with
     | RT_WorkspaceService | RT_UserResource => PStr <$> attributes !! "workspaceId"
     | _ => None
     end
  /\ payload !! "ownerId" =
     match resourceType self with
     | RT_UserResource => PStr <$> attributes !! "ownerId"
     | _ => None
     end
  /\ payload !! "parentWorkspaceServiceId" =
     match resourceType self with
     | RT_UserResource => PStr <$> attributes !! "parentWorkspaceServiceId"
     | _ => None
     end.
Proof.
  unfold get_resource_request_message_payload, getattr.
  destruct (resourceType self);
    repeat match goal with
      | |- context [attributes !! ?k] => destruct (attributes !! k) eqn:?
      end;
    intros H; simplify_eq;
    repeat split;
    repeat (first [ rewrite lookup_insert_eq; reflexivity
                  | rewrite lookup_insert_ne by done
                  | rewrite lookup_empty; reflexivity ]).
Qed.

Lemma payload_contents_witness :
  (<["parentWorkspaceServiceId" := PStr "svc1"]>
   (<["ownerId" := PStr "u1"]>
   (<["workspaceId" := PStr "ws1"]>
   (<["operationId" := PStr "op1"]>
   (<["stepId" := PStr "main"]>
   (<["action" := PAction "install"]>
   (<["id" := PStr "ur1"]>
   (<["name" := PStr "tre-user-resource-vm"]>
   (<["version" := PStr "0.2.0"]>
   (<["parameters" := PParameters (properties sample_user_resource)]>
      (∅ : gmap string (payload_value string)))))))))))) !! "ownerId"
  = Some (PStr "u1").
Proof.
  apply (payload_contents sample_user_resource user_resource_attributes
           "op1" "main" "install").
  reflexivity.
Defined.

(** X22: building the payload fails only with [AttributeError], and only
    for a workspace service or a user resource that lacks an attribute the
    payload needs; for a workspace or a shared service it never fails,
    whatever attributes the object has. *)
Theorem payload_fails_only_for_missing_attribute {RequestAction : Type}
    (self : Resource) (attributes : gmap string string)
    (operation_id step_id : string) (action : RequestAction) (r : raised) :
  get_resource_request_message_payload self attributes operation_id step_id action =
    Raised r ->
  exists name,
    r = AttributeError name
    /\ attributes !! name = None
    /\ ((resourceType self = RT_WorkspaceService /\ name = "workspaceId")
        \/ (resourceType self = RT_UserResource
            /\ (name = "workspaceId" \/ name = "ownerId"
                \/ name = "parentWorkspaceServiceId"))).
Proof.
  unfold get_resource_request_message_payload, getattr.
  destruct (resourceType self) eqn:Ht;
    repeat match goal with
      | |- context [attributes !! ?k] => destruct (attributes !! k) eqn:?
      end;
    intros H; simplify_eq; eexists; (split; [reflexivity|]); split; try done; auto.
Qed.

Lemma payload_fails_only_for_missing_attribute_witness :
  exists name,
    AttributeError "ownerId" = AttributeError name
    /\ attributes_without_owner !! name = None
    /\ ((resourceType sample_user_resource = RT_WorkspaceService /\ name = "workspaceId")
        \/ (resourceType sample_user_resource = RT_UserResource
            /\ (name = "workspaceId" \/ name = "ownerId"
                \/ name = "parentWorkspaceServiceId"))).
Proof.
  apply (payload_fails_only_for_missing_attribute (RequestAction := string)
           sample_user_resource attributes_without_owner "op1" "main" "install").
  reflexivity.
Defined.





(** *** More on the directory client *)

Lemma liftM_Returned {A} (m : M A) (dir : Directory) (env : Env)
    (ds ds' : DState) (a : A) :
  liftM m dir env ds = (Returned a, ds') ->
  m env (d_state ds) = (Ok a, d_state ds') /\ posted ds' = posted ds.
Proof.
  unfold liftM. destruct (m env (d_state ds)) as [[a0|e] st]; intros H; by simplify_eq.
Qed.

Lemma dask_Returned (dir dir' : Directory) (env : Env) (ds ds' : DState) :
  dask dir env ds = (Returned dir', ds') -> dir' = dir /\ ds' = ds.
Proof. unfold dask. intros H. by simplify_eq. Qed.

(** X24: the identity type is the ['@odata.type'] of the one object the
    directory answers for the id, asked among users and service principals
    with a Graph token: an answer with no object, with several, or with an
    object that has no type gives no identity type. *)
Theorem _get_identity_type_single_object (id : string) (dir : Directory)
    (env : Env) (ds ds' : DState) (t : string) :
  _get_identity_type id dir env ds = (Returned t, ds') ->
  exists msgraph_token graph_data,
    _get_msgraph_token env (d_state ds) = (Ok msgraph_token, d_state ds')
    /\ post_get_by_ids dir "https://graph.microsoft.com/v1.0/directoryObjects/getByIds"
         (_get_auth_header msgraph_token)
         {| ids := [id]; types := ["user"; "servicePrincipal"] |} = Ok graph_data
    /\ og_value graph_data = Some [ {| odata_type := Some t |} ]
    /\ posted ds' =
       posted ds ++ ["https://graph.microsoft.com/v1.0/directoryObjects/getByIds"].
Proof.
  unfold _get_identity_type. intros H.
  apply dbind_Returned in H as (token & d1 & Htok & H).
  apply liftM_Returned in Htok as [Htok Hp1].
  apply dbind_Returned in H as (dir' & d2 & Hask & H).
  apply dask_Returned in Hask as [-> ->].
  apply dbind_Returned in H as ([] & d3 & Hlog & H).
  unfold log_post in Hlog. simplify_eq.
  apply dbind_Returned in H as (g & d4 & Hg & H).
  apply liftR_Returned in Hg as [Hg ->].
  destruct (og_value g) as [[|[[ty|]] [|? ?]]|] eqn:Hv; try done.
  unfold mret, D_ret in H. simpl in H. simplify_eq. simpl.
  exists token, g. repeat split; try done. by rewrite Hp1.
Qed.

Lemma _get_identity_type_single_object_witness :
  exists msgraph_token graph_data,
    _get_msgraph_token directory_env (d_state no_dstate) =
      (Ok msgraph_token,
       d_state (_get_identity_type "u1" users_directory directory_env no_dstate).2)
    /\ post_get_by_ids users_directory
         "https://graph.microsoft.com/v1.0/directoryObjects/getByIds"
         (_get_auth_header msgraph_token)
         {| ids := ["u1"]; types := ["user"; "servicePrincipal"] |} = Ok graph_data
    /\ og_value graph_data = Some [ {| odata_type := Some "#microsoft.graph.user" |} ]
    /\ posted (_get_identity_type "u1" users_directory directory_env no_dstate).2 =
       posted no_dstate ++ ["https://graph.microsoft.com/v1.0/directoryObjects/getByIds"].
Proof.
  apply (_get_identity_type_single_object "u1" users_directory directory_env no_dstate).
  reflexivity.
Defined.

(** X25: the two directory calls behind the details of a workspace fit
    together: the role assignments returned are the answer of the GET for
    the service principal, the batch POSTed is the one built from that
    answer, the users returned are the answer to that batch, and both calls
    carry the same Graph token. *)
Theorem _get_user_emails_with_role_asssignment_calls (client_id : string)
    (dir : Directory) (env : Env) (ds ds' : DState)
    (roles : roles_graph_data) (users : users_graph_data) :
  _get_user_emails_with_role_asssignment client_id dir env ds =
    (Returned (roles, users), ds') ->
  exists msgraph_token st1 body,
    _get_msgraph_token env (d_state ds) = (Ok msgraph_token, st1)
    /\ get_app_role_assigned_to dir
         (_get_service_principal_assigned_roles_endpoint client_id)
         (_get_auth_header msgraph_token) = Ok roles
    /\ _get_batch_users_by_role_assignments_body roles = Ok body
    /\ post_batch dir _get_batch_endpoint
         (<["Content-type" := "application/json"]> (_get_auth_header msgraph_token))
         body = Ok users
    /\ d_state ds' =
       logged st1 [HttpGet (_get_service_principal_assigned_roles_endpoint client_id)]
    /\ posted ds' = posted ds ++ [_get_batch_endpoint].
Proof.
  unfold _get_user_emails_with_role_asssignment. intros H.
  apply dbind_Returned in H as (token & d1 & Htok & H).
  apply liftM_Returned in Htok as [Htok Hp1].
  apply dbind_Returned in H as (dir' & d2 & Hask & H).
  apply dask_Returned in Hask as [-> ->].
  apply dbind_Returned in H as ([] & d3 & Hlog & H).
  apply liftM_Returned in Hlog as [Hlog Hp3].
  apply dbind_Returned in H as (roles' & d4 & Hroles & H).
  apply liftR_Returned in Hroles as [Hroles ->].
  apply dbind_Returned in H as (body & d5 & Hbody & H).
  apply liftR_Returned in Hbody as [Hbody ->].
  apply dbind_Returned in H as ([] & d6 & Hpost & H).
  unfold log_post in Hpost. simplify_eq.
  apply dbind_Returned in H as (users' & d7 & Husers & H).
  apply liftR_Returned in Husers as [Husers ->].
  unfold mret, D_ret in H. simplify_eq. simpl.
  exists token, (d_state d1), body. repeat split; try done.
  - unfold log in Hlog. by simplify_eq.
  - by rewrite Hp3, Hp1.
Qed.

Lemma _get_user_emails_with_role_asssignment_calls_witness :
  exists msgraph_token st1 body,
    _get_msgraph_token directory_env (d_state no_dstate) = (Ok msgraph_token, st1)
    /\ get_app_role_assigned_to users_directory
         (_get_service_principal_assigned_roles_endpoint "sp1")
         (_get_auth_header msgraph_token) = Ok user_assignments
    /\ _get_batch_users_by_role_assignments_body user_assignments = Ok body
    /\ post_batch users_directory _get_batch_endpoint
         (<["Content-type" := "application/json"]> (_get_auth_header msgraph_token))
         body = Ok {| ug_responses := Some user_responses |}
    /\ d_state (_get_user_emails_with_role_asssignment "sp1" users_directory
                  directory_env no_dstate).2 =
       logged st1 [HttpGet (_get_service_principal_assigned_roles_endpoint "sp1")]
    /\ posted (_get_user_emails_with_role_asssignment "sp1" users_directory
                 directory_env no_dstate).2 =
       posted no_dstate ++ [_get_batch_endpoint].
Proof.
  apply (_get_user_emails_with_role_asssignment_calls "sp1" users_directory
           directory_env no_dstate).
  reflexivity.
Defined.

(** *** Padding, again *)

(** X26: padding never touches the key: the result is the key's bytes
    followed by ['='] only, as many as the key's length modulo 4 (at most
    three), and a key whose length is a multiple of 4 comes back
    unchanged. *)
Theorem _ensure_b64padding_keeps_key (key : string) :
  firstn (String.length key) (_ensure_b64padding key) = list_byte_of_string key
  /\ skipn (String.length key) (_ensure_b64padding key) =
     repeat x3d (String.length key mod 4)
  /\ length (_ensure_b64padding key) <= String.length key + 3
  /\ (String.length key mod 4 = 0 -> _ensure_b64padding key = list_byte_of_string key).
Proof.
  assert (Hl : length (list_byte_of_string key) = String.length key).
  { unfold list_byte_of_string. rewrite length_map.
    induction key as [|c s IH]; simpl; [done | by rewrite IH]. }
  rewrite _ensure_b64padding_app, Hl.
  repeat split.
  - rewrite <- Hl at 1. rewrite firstn_app, firstn_all, Nat.sub_diag. simpl.
    by rewrite app_nil_r.
  - rewrite <- Hl at 1. rewrite skipn_app, skipn_all, Nat.sub_diag. done.
  - rewrite length_app, repeat_length, Hl.
    pose proof (Nat.mod_upper_bound (String.length key) 4). lia.
  - intros ->. simpl. by rewrite app_nil_r.
Qed.

Lemma _ensure_b64padding_keeps_key_witness :
  _ensure_b64padding "AQAB" = list_byte_of_string "AQAB".
Proof.
  apply (_ensure_b64padding_keeps_key "AQAB"). reflexivity.
Defined.

(** *** The gate and the directory service *)

#[global] Instance no_token_asked_refl : Reflexive no_token_asked.
Proof.
  intros st. exists []. rewrite app_nil_r. repeat split; apply not_elem_of_nil.
Qed.

#[global] Instance no_token_asked_trans : Transitive no_token_asked.
Proof.
  intros s1 s2 s3 (l1 & H1 & Ha1 & Hb1) (l2 & H2 & Ha2 & Hb2).
  exists (l1 ++ l2). rewrite H2, H1, app_assoc. repeat split; try done.
  - intros H. apply elem_of_app in H as [?|?]; done.
  - intros H. apply elem_of_app in H as [?|?]; done.
Qed.

Lemma store_key_no_token_asked (kid : string) (pem : list byte) :
  preserves no_token_asked (store_key kid pem).
Proof. intros env st. simpl. exists []. rewrite app_nil_r.
  repeat split; apply not_elem_of_nil. Qed.

Lemma log_HttpGet_no_token_asked (url : string) :
  preserves no_token_asked (log (HttpGet url)).
Proof.
  intros env st. exists [HttpGet url]. repeat split; try done;
    intros H; apply list_elem_of_singleton in H; discriminate.
Qed.

Lemma log_DbGetWorkspace_no_token_asked (workspace_id : string) :
  preserves no_token_asked (log (DbGetWorkspace workspace_id)).
Proof.
  intros env st. exists [DbGetWorkspace workspace_id]. repeat split; try done;
    intros H; apply list_elem_of_singleton in H; discriminate.
Qed.

#[global] Hint Resolve store_key_no_token_asked log_HttpGet_no_token_asked
  log_DbGetWorkspace_no_token_asked : preserves.

Lemma cache_key_no_token_asked (key : jwk) : preserves no_token_asked (cache_key key).
Proof. unfold cache_key. preserves_auto. Qed.

#[global] Hint Resolve cache_key_no_token_asked : preserves.

Lemma refresh_keys_no_token_asked : preserves no_token_asked refresh_keys.
Proof. unfold refresh_keys. preserves_auto. Qed.

#[global] Hint Resolve refresh_keys_no_token_asked : preserves.

Lemma _decode_token_no_token_asked (token : option string) (audience : string) :
  preserves no_token_asked (_decode_token token audience).
Proof. unfold _decode_token, _get_key_id, _get_token_key. preserves_auto. Qed.

Lemma _fetch_ws_app_reg_id_from_ws_id_no_token_asked (request : Request) :
  preserves no_token_asked (_fetch_ws_app_reg_id_from_ws_id request).
Proof. unfold _fetch_ws_app_reg_id_from_ws_id. preserves_auto. Qed.

#[global] Hint Resolve _decode_token_no_token_asked
  _fetch_ws_app_reg_id_from_ws_id_no_token_asked : preserves.

(** X27: the gate needs no access to the directory service: whatever the
    request and the outcome, [__call__] never asks MSAL for a Graph token;
    the directory functions, which all begin with that request, are not
    part of token validation. *)
Theorem call_never_asks_for_graph_token (self : AzureADAuthorization)
    (request : Request) (env : Env) (st : State) :
  exists events,
    calls (call self request env st).2 = calls st ++ events
    /\ (MsalSilent ∉ events) /\ (MsalForClient ∉ events).
Proof.
  assert (H : preserves no_token_asked (call self request)).
  { unfold call, decode_with_either, try_workspace_app_registration,
      try_core_app_registration, authorize.
    preserves_auto. }
  apply (H env st).
Qed.
